(** * Smart Triage Agent: the action functions, the dispatch loop and the
      HTTP facade of [agent_brain.py] and [app.py], embedded in Rocq.

    Python values that travel through the program (the parsed model reply,
    the request body, the result envelope) are values of [pyval].  A Python
    [str] is a Rocq [string], one [ascii] per character (code points below
    256; every literal of the source is plain ASCII).  The registries of the
    module-level [db] are threaded explicitly through every function that
    reads or appends to them.  The model provider (the Gemini SDK together
    with [json.loads] on its reply text) and the clock are inputs. *)

From Stdlib Require Import String Ascii List ZArith Lia Bool Arith Sorted FinFun.
From Stdlib Require Import DecimalString DecimalZ.
Import ListNotations.

Local Open Scope list_scope.
Local Open Scope string_scope.

(** ** Python values *)

#[local] Set Warnings "-register-all".

Inductive pyval : Type :=
| PNone
| PBool (b : bool)
| PInt (z : Z)
| PFloat (r : string)   (* a float, carried as the text [repr] prints for it *)
| PStr (s : string)
| PList (l : list pyval)
| PDict (d : list (string * pyval)).  (* keys in insertion order *)

Definition dq : ascii := "034"%char.  (* the double quote *)
Definition bs : ascii := "092"%char.  (* the backslash *)
Definition chr (c : ascii) : string := String c EmptyString.

(** [str(n)] for a Python [int]. *)
Definition str_int (z : Z) : string := NilEmpty.string_of_int (Z.to_int z).

Definition hex_digit (n : nat) : ascii :=
  nth n (list_ascii_of_string "0123456789abcdef") "0"%char.

Definition hex2 (n : nat) : string :=
  String (hex_digit (n / 16)) (String (hex_digit (n mod 16)) EmptyString).

Definition has_char (c : ascii) (s : string) : bool :=
  existsb (Ascii.eqb c) (list_ascii_of_string s).

(** [repr] of a [str]: single quotes unless the text holds a single quote
    and no double quote; the quote, the backslash and whatever is not
    printable are escaped. *)
Definition repr_quote (s : string) : ascii :=
  if has_char "'"%char s && negb (has_char dq s) then dq else "'"%char.

Definition repr_char (q c : ascii) : string :=
  let n := nat_of_ascii c in
  if Ascii.eqb c q || Ascii.eqb c bs then String bs (chr c)
  else if (n =? 9)%nat then String bs "t"
  else if (n =? 10)%nat then String bs "n"
  else if (n =? 13)%nat then String bs "r"
  else if (n <? 32)%nat || (n =? 127)%nat then String bs "x" ++ hex2 n
  else if (n <? 127)%nat then chr c
  else if (n <? 161)%nat || (n =? 173)%nat then String bs "x" ++ hex2 n
  else chr c.

Definition repr_str (s : string) : string :=
  let q := repr_quote s in
  chr q ++ String.concat EmptyString (map (repr_char q) (list_ascii_of_string s))
        ++ chr q.

Fixpoint py_repr (v : pyval) : string :=
  match v with
  | PNone => "None"
  | PBool b => if b then "True" else "False"
  | PInt z => str_int z
  | PFloat r => r
  | PStr s => repr_str s
  | PList l => "[" ++ String.concat ", " (map py_repr l) ++ "]"
  | PDict d =>
      "{" ++ String.concat ", "
               (map (fun kv => let '(k, x) := kv in
                               repr_str k ++ ": " ++ py_repr x) d) ++ "}"
  end.

(** [str(v)], which is what an f-string field [{v}] inserts. *)
Definition py_str (v : pyval) : string :=
  match v with
  | PStr s => s
  | _ => py_repr v
  end.

(** Truth value of [v], as [not v] tests it. *)
Definition py_truthy (v : pyval) : bool :=
  match v with
  | PNone => false
  | PBool b => b
  | PInt z => negb (z =? 0)%Z
  | PFloat r => negb (String.eqb r "0.0" || String.eqb r "-0.0")
  | PStr s => negb (String.eqb s EmptyString)
  | PList l => match l with [] => false | _ => true end
  | PDict d => match d with [] => false | _ => true end
  end.

(** [type(v).__name__] *)
Definition type_name (v : pyval) : string :=
  match v with
  | PNone => "NoneType"
  | PBool _ => "bool"
  | PInt _ => "int"
  | PFloat _ => "float"
  | PStr _ => "str"
  | PList _ => "list"
  | PDict _ => "dict"
  end.

(** ** Exceptions: a computation returns or raises; an exception is carried
    as its message [str(e)]. *)

Inductive res (A : Type) : Type :=
| Ok (a : A)
| Raise (e : string).
Arguments Ok {A} a.
Arguments Raise {A} e.

Definition bind {A B : Type} (m : res A) (k : A -> res B) : res B :=
  match m with
  | Ok a => k a
  | Raise e => Raise e
  end.

Notation "x <- m ;; k" := (bind m (fun x => k))
  (at level 61, m at next level, right associativity).

(** Lookup in a dict's items. *)
Fixpoint dict_get (d : list (string * pyval)) (key : string) : option pyval :=
  match d with
  | [] => None
  | (k, x) :: d' => if String.eqb k key then Some x else dict_get d' key
  end.

(** [key in d] *)
Definition dict_has (d : list (string * pyval)) (key : string) : bool :=
  match dict_get d key with Some _ => true | None => false end.

(** [v.get(key, default)]: only a dict has a [get]; on any other value the
    attribute lookup raises AttributeError. *)
Definition py_get (v : pyval) (key : string) (default : pyval) : res pyval :=
  match v with
  | PDict d => Ok (match dict_get d key with Some x => x | None => default end)
  | _ => Raise ("'" ++ type_name v ++ "' object has no attribute 'get'")
  end.

(** [a == b] where [b] is a [str] literal. *)
Definition py_eq_str (a : pyval) (b : string) : bool :=
  match a with
  | PStr s => String.eqb s b
  | _ => false
  end.

(** ** [json.dumps] (default separators, [ensure_ascii=True]) *)

Definition json_char (c : ascii) : string :=
  let n := nat_of_ascii c in
  if Ascii.eqb c dq || Ascii.eqb c bs then String bs (chr c)
  else if (n =? 10)%nat then String bs "n"
  else if (n =? 13)%nat then String bs "r"
  else if (n =? 9)%nat then String bs "t"
  else if (n =? 8)%nat then String bs "b"
  else if (n =? 12)%nat then String bs "f"
  else if (32 <=? n)%nat && (n <=? 126)%nat then chr c
  else String bs "u00" ++ hex2 n.

Definition json_str (s : string) : string :=
  chr dq ++ String.concat EmptyString (map json_char (list_ascii_of_string s))
         ++ chr dq.

Fixpoint json_dumps (v : pyval) : string :=
  match v with
  | PNone => "null"
  | PBool b => if b then "true" else "false"
  | PInt z => str_int z
  | PFloat r =>
      if String.eqb r "nan" then "NaN"
      else if String.eqb r "inf" then "Infinity"
      else if String.eqb r "-inf" then "-Infinity"
      else r
  | PStr s => json_str s
  | PList l => "[" ++ String.concat ", " (map json_dumps l) ++ "]"
  | PDict d =>
      "{" ++ String.concat ", "
               (map (fun kv => let '(k, x) := kv in
                               json_str k ++ ": " ++ json_dumps x) d) ++ "}"
  end.

(** ** The mock database *)

Record Ticket : Type := {
  t_id : string;
  t_summary : pyval;
  t_priority : pyval;
  t_status : string;
  t_created_at : string
}.

Record Invoice : Type := {
  i_id : string;
  i_client : pyval;
  i_amount : pyval;
  i_status : string;
  i_created_at : string
}.

Record CalendarEvent : Type := {
  time : string;
  event : string
}.

Record db : Type := {
  tickets : list Ticket;
  invoices : list Invoice;
  calendar : list CalendarEvent
}.

(** The dicts the records stand for, keys in the order of the source's
    dict displays. *)
Definition ticket_dict (t : Ticket) : pyval :=
  PDict [("id", PStr (t_id t)); ("summary", t_summary t);
         ("priority", t_priority t); ("status", PStr (t_status t));
         ("created_at", PStr (t_created_at t))].

Definition invoice_dict (i : Invoice) : pyval :=
  PDict [("id", PStr (i_id i)); ("client", i_client i);
         ("amount", i_amount i); ("status", PStr (i_status i));
         ("created_at", PStr (i_created_at i))].

Definition event_dict (e : CalendarEvent) : pyval :=
  PDict [("time", PStr (time e)); ("event", PStr (event e))].

(** The module-level [db] as the import leaves it. *)
Definition db0 : db := {|
  tickets := [];
  invoices := [];
  calendar := [ {| time := "2023-10-27 10:00"; event := "Team Standup" |};
                {| time := "2023-10-27 14:00"; event := "Client Call" |} ]
|}.

(** ** Tool functions.  [now] is the text
    [datetime.now().strftime("%Y-%m-%d %H:%M")] gives at the call. *)

Definition create_ticket (now : string) (d : db) (summary priority : pyval)
  : string * db :=
  let ticket_id := "TICK-" ++ str_int (Z.of_nat (length (tickets d)) + 101) in
  let ticket := {| t_id := ticket_id;
                   t_summary := summary;
                   t_priority := priority;
                   t_status := "Open";
                   t_created_at := now |} in
  ("Ticket created successfully. ID: " ++ ticket_id,
   {| tickets := (tickets d ++ [ticket])%list;
      invoices := invoices d;
      calendar := calendar d |}).

Definition generate_invoice (now : string) (d : db) (client_name amount : pyval)
  : string * db :=
  let invoice_id := "INV-" ++ str_int (Z.of_nat (length (invoices d)) + 1001) in
  let invoice := {| i_id := invoice_id;
                    i_client := client_name;
                    i_amount := amount;
                    i_status := "Sent";
                    i_created_at := now |} in
  ("Invoice generated for " ++ py_str client_name ++ " for $" ++ py_str amount
     ++ ". ID: " ++ invoice_id,
   {| tickets := tickets d;
      invoices := (invoices d ++ [invoice])%list;
      calendar := calendar d |}).

Definition check_calendar (d : db) (date_str : pyval) : string :=
  let events := calendar d in
  match events with
  | [] => "Calendar is completely free."
  | _ => "Existing events: " ++ json_dumps (PList (map event_dict events))
  end.

Definition send_reply (message : pyval) : string :=
  "Reply sent: '" ++ py_str message ++ "'".

(** ** The agent logic *)

Definition nl : string := chr "010"%char.
Definition quoted (s : string) : string := chr dq ++ s ++ chr dq.

Definition system_prompt : string :=
  String.concat nl
    [ EmptyString;
      "    You are an Enterprise Triage Agent. Your job is to analyze incoming messages and decide what to do.";
      "    ";
      "    AVAILABLE TOOLS:";
      "    1. create_ticket(summary, priority): Use for bug reports, IT issues, or feature requests.";
      "    2. check_calendar(date_str): Use for scheduling requests.";
      "    3. generate_invoice(client_name, amount): Use when the user asks to create or send an invoice.";
      "    4. send_reply(message): Use to reply to the user.";
      "    ";
      "    INSTRUCTIONS:";
      "    - Analyze the user's message.";
      "    - Return a JSON object with the following structure:";
      "    {";
      "        " ++ quoted "thought" ++ ": " ++ quoted "Your reasoning here" ++ ",";
      "        " ++ quoted "tool" ++ ": " ++ quoted "The name of the tool to use" ++ ",";
      "        " ++ quoted "args" ++ ": { " ++ quoted "arg_name" ++ ": "
                 ++ quoted "arg_value" ++ " }";
      "    }";
      "    " ].

Definition prompt (user_message : pyval) : string :=
  system_prompt ++ nl ++ nl ++ "USER MESSAGE: " ++ py_str user_message.

Definition candidate_models : list string :=
  [ "gemini-2.5-flash"; "gemini-2.0-flash"; "gemini-1.5-flash" ].

(** The model provider, as one request sees it.  [generate model_name p] is
    what [GenerativeModel(model_name, ...).generate_content(p)] followed by
    [json.loads(response.text)] comes to: the parsed reply, or the exception
    either step raised.  [list_models] is
    [[m.name for m in genai.list_models()]]. *)
Record provider : Type := {
  generate : string -> string -> res pyval;
  list_models : res (list string)
}.

(** Calls into the SDK, in the order they are made.  [GenerateContent]
    stands for one candidate's whole request (the [GenerativeModel]
    constructor and its [generate_content]); [Configure] is
    [genai.configure], which only stores the key and returns. *)
Inductive call : Type :=
| Configure (api_key : pyval)
| GenerateContent (model_name prompt : string)
| ListModels.

Definition envelope : Type := list (string * pyval).

(** The if/elif chain on [tool_name]; the [get]s on [tool_args] are
    evaluated before the tool function is entered. *)
Definition execute_tool (now : string) (d : db) (tool_name tool_args : pyval)
  : res (string * db) :=
  if py_eq_str tool_name "create_ticket" then
    summary <- py_get tool_args "summary" PNone ;;
    priority <- py_get tool_args "priority" (PStr "Medium") ;;
    Ok (create_ticket now d summary priority)
  else if py_eq_str tool_name "check_calendar" then
    date_str <- py_get tool_args "date_str" PNone ;;
    Ok (check_calendar d date_str, d)
  else if py_eq_str tool_name "generate_invoice" then
    client_name <- py_get tool_args "client_name" PNone ;;
    amount <- py_get tool_args "amount" PNone ;;
    Ok (generate_invoice now d client_name amount)
  else if py_eq_str tool_name "send_reply" then
    message <- py_get tool_args "message" PNone ;;
    Ok (send_reply message, d)
  else
    Ok ("Error: Unknown tool selected.", d).

(** What follows [json.loads] inside the [try]. *)
Definition handle_reply (now : string) (d : db) (model_name : string)
    (result_json : pyval) : res (envelope * db) :=
  tool_name <- py_get result_json "tool" PNone ;;
  tool_args <- py_get result_json "args" (PDict []) ;;
  thought <- py_get result_json "thought" PNone ;;
  out <- execute_tool now d tool_name tool_args ;;
  Ok ([ ("thought", thought);
        ("tool_used", tool_name);
        ("tool_output", PStr (fst out));
        ("model_used", PStr (model_name ++ " (Gemini SDK)")) ],
      snd out).

(** The body of the [try] for one candidate. *)
Definition try_model (p : provider) (now : string) (d : db)
    (user_message : pyval) (model_name : string) : res (envelope * db) :=
  result_json <- generate p model_name (prompt user_message) ;;
  handle_reply now d model_name result_json.

Inductive loop_result : Type :=
| Returned (result : envelope) (d : db)
| AllFailed (last_error : option string).

(** The [for model_name in candidate_models] loop with its [try]/[except]. *)
Fixpoint fallback_loop (p : provider) (now : string) (d : db)
    (user_message : pyval) (models : list string) (last_error : option string)
  : loop_result * list call :=
  match models with
  | [] => (AllFailed last_error, [])
  | model_name :: rest =>
      let c := GenerateContent model_name (prompt user_message) in
      match try_model p now d user_message model_name with
      | Ok (result, d') => (Returned result d', [c])
      | Raise e =>
          let '(r, t) := fallback_loop p now d user_message rest (Some e) in
          (r, c :: t)
      end
  end.

(** [str(last_error)] *)
Definition str_error (last_error : option string) : string :=
  match last_error with
  | Some e => e
  | None => "None"
  end.

Definition process_message (p : provider) (now : string) (d : db)
    (user_message api_key : pyval) : envelope * db * list call :=
  if negb (py_truthy api_key) then
    ([("error", PStr "Missing API Key")], d, [])
  else
    match fallback_loop p now d user_message candidate_models None with
    | (Returned result d', t) => (result, d', Configure api_key :: t)
    | (AllFailed last_error, t) =>
        match list_models p with
        | Ok available_models =>
            ([("error",
               PStr ("All models failed. Last error: " ++ str_error last_error
                       ++ ". Available: "
                       ++ py_str (PList (map PStr (firstn 5 available_models)))))],
             d, Configure api_key :: (t ++ [ListModels])%list)
        | Raise _ =>
            ([("error",
               PStr ("All models failed. Last error: " ++ str_error last_error))],
             d, Configure api_key :: (t ++ [ListModels])%list)
        end
    end.

(** ** The HTTP facade ([app.py]) *)

Record response : Type := {
  status : nat;
  body : pyval
}.

(** [POST /process]; [data] is [request.json]. *)
Definition process (p : provider) (now : string) (d : db) (data : pyval)
  : res (response * db * list call) :=
  message <- py_get data "message" PNone ;;
  api_key <- py_get data "api_key" PNone ;;
  if negb (py_truthy api_key) then
    Ok ({| status := 400; body := PDict [("error", PStr "Missing API Key")] |},
        d, [])
  else
    let '(result, d', t) := process_message p now d message api_key in
    if dict_has result "error" then
      Ok ({| status := 400; body := PDict result |}, d', t)
    else
      Ok ({| status := 200;
             body := PDict [ ("result", PDict result);
                             ("tickets",
                              PList (rev (map ticket_dict (tickets d')))) ] |},
          d', t).

(** [GET /]: the tickets the template is given, newest first. *)
Definition index (d : db) : list Ticket := rev (tickets d).

(** ** A process lifetime: whatever is done to the registries after the
    import, in order. *)

Inductive activity : Type :=
| CallCreateTicket (now : string) (summary priority : pyval)
| CallGenerateInvoice (now : string) (client_name amount : pyval)
| CallCheckCalendar (date_str : pyval)
| CallSendReply (message : pyval)
| CallProcessMessage (p : provider) (now : string) (user_message api_key : pyval)
| PostProcess (p : provider) (now : string) (data : pyval)
| GetIndex.

Definition perform (d : db) (a : activity) : db :=
  match a with
  | CallCreateTicket now summary priority =>
      snd (create_ticket now d summary priority)
  | CallGenerateInvoice now client_name amount =>
      snd (generate_invoice now d client_name amount)
  | CallCheckCalendar _ => d
  | CallSendReply _ => d
  | CallProcessMessage p now user_message api_key =>
      snd (fst (process_message p now d user_message api_key))
  | PostProcess p now data =>
      match process p now d data with
      | Ok (_, d', _) => d'
      | Raise _ => d
      end
  | GetIndex => d
  end.

Definition lifetime_from (d : db) (acts : list activity) : db :=
  fold_left perform acts d.

Definition lifetime (acts : list activity) : db := lifetime_from db0 acts.

(** The numbers [base], [base + 1], ... of the first [n] entries of a
    registry. *)
Definition id_numbers (base : Z) (n : nat) : list Z :=
  map (fun k => (Z.of_nat k + base)%Z) (seq 0 n).

(** What one activity can do to the registries. *)
Inductive db_step (d : db) : db -> Prop :=
| step_none : db_step d d
| step_ticket now summary priority :
    db_step d (snd (create_ticket now d summary priority))
| step_invoice now client_name amount :
    db_step d (snd (generate_invoice now d client_name amount)).

(** The four tool names of the if/elif chain. *)
Definition known_tool (tool_name : pyval) : bool :=
  py_eq_str tool_name "create_ticket" || py_eq_str tool_name "check_calendar"
  || py_eq_str tool_name "generate_invoice" || py_eq_str tool_name "send_reply".

(** [d.get(key, default)] on the items of a dict. *)
Definition get_or (d : list (string * pyval)) (key : string) (default : pyval)
  : pyval :=
  match dict_get d key with Some x => x | None => default end.

Definition is_dict (v : pyval) : bool :=
  match v with PDict _ => true | _ => false end.

(** A parsed reply on which the rest of the [try] body raises nothing: it is
    a JSON object, and its [args] is an object (or absent) when its [tool]
    names one of the four tools. *)
Definition reply_ok (v : pyval) : bool :=
  match v with
  | PDict r =>
      if known_tool (get_or r "tool" PNone)
      then is_dict (get_or r "args" (PDict []))
      else true
  | _ => false
  end.

Definition attempt_ok (p : provider) (user_message : pyval) (model_name : string)
  : bool :=
  match generate p model_name (prompt user_message) with
  | Ok v => reply_ok v
  | Raise _ => false
  end.

(** The provider calls for a list of candidates. *)
Definition generate_calls (user_message : pyval) (models : list string)
  : list call :=
  map (fun m => GenerateContent m (prompt user_message)) models.

(** The IDs a registry of [n] entries holds. *)
Definition ticket_ids (n : nat) : list string :=
  map (fun k => "TICK-" ++ str_int k) (id_numbers 101 n).

Definition invoice_ids (n : nat) : list string :=
  map (fun k => "INV-" ++ str_int k) (id_numbers 1001 n).

(** What holds of the registries at every point of a lifetime. *)
Record registries_wf (d : db) : Prop := {
  wf_ticket_ids : map t_id (tickets d) = ticket_ids (length (tickets d));
  wf_invoice_ids : map i_id (invoices d) = invoice_ids (length (invoices d));
  wf_ticket_status : Forall (fun t => t_status t = "Open") (tickets d);
  wf_invoice_status : Forall (fun i => i_status i = "Sent") (invoices d);
  wf_calendar : calendar d = calendar db0
}.

(** The envelope the [try] body returns for the parsed reply [r]. *)
Definition success_envelope (model_name : string) (r : list (string * pyval))
    (tool_output : string) : envelope :=
  [ ("thought", get_or r "thought" PNone);
    ("tool_used", get_or r "tool" PNone);
    ("tool_output", PStr tool_output);
    ("model_used", PStr (model_name ++ " (Gemini SDK)")) ].

(** A model-call stub: the listed candidates reply as listed (or raise as
    listed), every other model is rejected. *)
Definition stub (replies : list (string * res pyval))
    (models : res (list string)) : provider :=
  {| generate := fun model_name _ =>
       match find (fun kv => String.eqb (fst kv) model_name) replies with
       | Some kv => snd kv
       | None => Raise "404 model not found"
       end;
     list_models := models |}.

(** The reading under which the loop returns at the first candidate whose
    request and JSON parse succeed, whatever the parsed reply holds. *)
Definition returns_at_first_parsed_reply : Prop :=
  forall p now d user_message api_key before m after v,
    py_truthy api_key = true ->
    candidate_models = (before ++ m :: after)%list ->
    (forall m', In m' before ->
                exists e, generate p m' (prompt user_message) = Raise e) ->
    generate p m (prompt user_message) = Ok v ->
    exists result d',
      process_message p now d user_message api_key =
      (result, d',
       Configure api_key :: generate_calls user_message (before ++ [m])%list) /\
      dict_get result "model_used" = Some (PStr (m ++ " (Gemini SDK)")).

(** A first candidate whose reply parses but carries [args: null], and a
    second one that answers in full. *)
Definition stub_args_null : provider :=
  stub [ ("gemini-2.5-flash",
          Ok (PDict [("tool", PStr "send_reply"); ("args", PNone)]));
         ("gemini-2.0-flash",
          Ok (PDict [("tool", PStr "send_reply");
                     ("args", PDict [("message", PStr "hi")])])) ]
       (Ok []).

(** Candidates 1 and 2 fail, candidate 3 answers. *)
Definition stub_third_succeeds : provider :=
  stub [ ("gemini-2.5-flash", Raise "429 quota exceeded");
         ("gemini-2.0-flash", Raise "Expecting value: line 1 column 1 (char 0)");
         ("gemini-1.5-flash",
          Ok (PDict [("thought", PStr "greet"); ("tool", PStr "send_reply");
                     ("args", PDict [("message", PStr "hello")])])) ]
       (Ok []).

(** Every candidate fails; the diagnostic call lists seven models. *)
Definition stub_all_fail : provider :=
  stub [ ("gemini-2.5-flash", Raise "429 quota exceeded");
         ("gemini-2.0-flash", Ok (PList []));
         ("gemini-1.5-flash", Raise "404 model not found") ]
       (Ok [ "models/a"; "models/b"; "models/c"; "models/d"; "models/e";
             "models/f"; "models/g" ]).

(** Every candidate fails, and so does the diagnostic call. *)
Definition stub_all_fail_no_list : provider :=
  stub [] (Raise "403 permission denied").

(** The first candidate selects a tool the dispatcher does not know. *)
Definition stub_unknown_tool : provider :=
  stub [ ("gemini-2.5-flash",
          Ok (PDict [("thought", PStr "a demo"); ("tool", PStr "book_demo");
                     ("args", PDict [("date_str", PStr "tomorrow")])])) ]
       (Ok []).

(** The first candidate's reply has no tool key at all. *)
Definition stub_no_tool : provider :=
  stub [ ("gemini-2.5-flash", Ok (PDict [("thought", PStr "nothing to do")])) ]
       (Ok []).

(** The first candidate asks for a ticket of priority Urgent. *)
Definition stub_urgent : provider :=
  stub [ ("gemini-2.5-flash",
          Ok (PDict [("thought", PStr "an outage"); ("tool", PStr "create_ticket");
                     ("args", PDict [("summary", PStr "server down");
                                     ("priority", PStr "Urgent")])])) ]
       (Ok []).

(** The reading under which an unrecognised tool yields the output [text]
    in a result without error key. *)
Definition unknown_tool_output_is (text : string) : Prop :=
  forall p now d user_message api_key before m after r,
    py_truthy api_key = true ->
    candidate_models = (before ++ m :: after)%list ->
    forallb (fun m' => negb (attempt_ok p user_message m')) before = true ->
    generate p m (prompt user_message) = Ok (PDict r) ->
    known_tool (get_or r "tool" PNone) = false ->
    let result := fst (fst (process_message p now d user_message api_key)) in
    dict_has result "error" = false /\
    dict_get result "tool_output" = Some (PStr text).

(** The values the data model lists for a ticket's priority. *)
Definition priority_enum : list pyval := [PStr "Low"; PStr "Medium"; PStr "High"].

(** The reading under which every ticket of a lifetime has a priority of
    the enum. *)
Definition priorities_in_enum : Prop :=
  forall acts t, In t (tickets (lifetime acts)) -> In (t_priority t) priority_enum.

(** Whether the attempt completes for some candidate of the list. *)
Definition some_attempt_ok (p : provider) (user_message : pyval) : bool :=
  existsb (attempt_ok p user_message) candidate_models.

(** How many candidates of [models] the loop gets to: up to and including
    the first whose attempt completes, all of them when none does. *)
Fixpoint attempts_made (p : provider) (user_message : pyval)
    (models : list string) : nat :=
  match models with
  | [] => 0
  | m :: rest =>
      if attempt_ok p user_message m then 1
      else S (attempts_made p user_message rest)
  end.

(** The message of the exception a failing attempt ends with: the provider's
    own, or the AttributeError of the first [get] on something that is not
    a dict (the parsed reply, or its args). *)
Definition attempt_error (p : provider) (user_message : pyval)
    (model_name : string) : string :=
  match generate p model_name (prompt user_message) with
  | Raise e => e
  | Ok (PDict r) =>
      "'" ++ type_name (get_or r "args" (PDict [])) ++ "' object has no attribute 'get'"
  | Ok v => "'" ++ type_name v ++ "' object has no attribute 'get'"
  end.

(** The first candidate asks for an invoice. *)
Definition stub_invoice : provider :=
  stub [ ("gemini-2.5-flash",
          Ok (PDict [("thought", PStr "billing"); ("tool", PStr "generate_invoice");
                     ("args", PDict [("client_name", PStr "Acme");
                                     ("amount", PInt 250)])])) ]
       (Ok []).

(** No candidate's attempt completes; the last one replies with a JSON
    string, and the diagnostic call fails. *)
Definition stub_last_not_object : provider :=
  stub [ ("gemini-2.5-flash", Raise "429 quota exceeded");
         ("gemini-2.0-flash",
          Ok (PDict [("tool", PStr "create_ticket"); ("args", PList [])]));
         ("gemini-1.5-flash", Ok (PStr "sorry")) ]
       (Raise "403 permission denied").

(** The reading under which, for every parsed reply that selects one of
    the four tools, what follows the parse returns normally. *)
Definition every_reply_returns_normally : Prop :=
  forall now d model_name r,
    known_tool (get_or r "tool" PNone) = true ->
    exists result d', handle_reply now d model_name (PDict r) = Ok (result, d').

(** * Properties *)

(** ** Formatting of integers *)

Lemma str_int_inj (a b : Z) : str_int a = str_int b -> a = b.
Proof.
  unfold str_int. intros H.
  apply DecimalZ.to_int_inj.
  assert (E : Some (Z.to_int a) = Some (Z.to_int b)).
  { rewrite <- (NilEmpty.isi (Z.to_int a)), <- (NilEmpty.isi (Z.to_int b)).
    now rewrite H. }
  now injection E.
Qed.

Lemma append_inj_l (s x y : string) : s ++ x = s ++ y -> x = y.
Proof.
  induction s as [|c s IH]; simpl; intros H; [assumption|].
  injection H as H. now apply IH.
Qed.

(** ** The registries along a lifetime *)

Lemma id_numbers_S (base : Z) (n : nat) :
  id_numbers base (S n) = (id_numbers base n ++ [(Z.of_nat n + base)%Z])%list.
Proof.
  unfold id_numbers. rewrite seq_S, map_app. reflexivity.
Qed.

Lemma id_numbers_bound (base : Z) (n : nat) :
  Forall (fun z => (base <= z < Z.of_nat n + base)%Z) (id_numbers base n).
Proof.
  unfold id_numbers. apply Forall_forall. intros z Hz.
  apply in_map_iff in Hz. destruct Hz as [k [<- Hk]].
  apply in_seq in Hk. lia.
Qed.

Lemma id_numbers_sorted (base : Z) (n : nat) :
  StronglySorted Z.lt (id_numbers base n).
Proof.
  induction n as [|n IH].
  - constructor.
  - rewrite id_numbers_S.
    pose proof (id_numbers_bound base n) as Hb.
    induction IH as [|z l Hl IHl Hz]; simpl.
    + constructor; constructor.
    + inversion Hb; subst. constructor.
      * now apply IHl.
      * apply Forall_app. split; [assumption|].
        constructor; [lia | constructor].
Qed.

Lemma id_numbers_NoDup (base : Z) (n : nat) : NoDup (id_numbers base n).
Proof.
  unfold id_numbers. apply Injective_map_NoDup.
  - intros a b H. lia.
  - apply seq_NoDup.
Qed.

Lemma db_step_tickets (d d' : db) :
  db_step d d' ->
  tickets d' = tickets d \/
  exists t, tickets d' = (tickets d ++ [t])%list /\
            t_id t = "TICK-" ++ str_int (Z.of_nat (length (tickets d)) + 101) /\
            t_status t = "Open".
Proof.
  intros [ | now summary priority | now client_name amount ]; simpl; auto.
  right. eexists. split; [reflexivity|]. simpl. auto.
Qed.

Lemma db_step_invoices (d d' : db) :
  db_step d d' ->
  invoices d' = invoices d \/
  exists i, invoices d' = (invoices d ++ [i])%list /\
            i_id i = "INV-" ++ str_int (Z.of_nat (length (invoices d)) + 1001) /\
            i_status i = "Sent".
Proof.
  intros [ | now summary priority | now client_name amount ]; simpl; auto.
  right. eexists. split; [reflexivity|]. simpl. auto.
Qed.

Lemma db_step_calendar (d d' : db) : db_step d d' -> calendar d' = calendar d.
Proof. intros []; reflexivity. Qed.

(** ** What a request can do to the registries *)

(** Case analysis along the if/elif chain of [execute_tool]: one goal per
    tool, in the order of the chain, and a last one for the [else]. *)
Ltac by_tool tool_name :=
  unfold execute_tool;
  destruct (py_eq_str tool_name "create_ticket");
  [| destruct (py_eq_str tool_name "check_calendar");
     [| destruct (py_eq_str tool_name "generate_invoice");
        [| destruct (py_eq_str tool_name "send_reply") ]]].

Lemma execute_tool_step now d tool_name tool_args out d' :
  execute_tool now d tool_name tool_args = Ok (out, d') -> db_step d d'.
Proof.
  by_tool tool_name;
    try (destruct tool_args; simpl; try discriminate);
    intros H; injection H as _ <-;
    first [apply step_none | apply step_ticket | apply step_invoice].
Qed.

Lemma handle_reply_step now d model_name result_json result d' :
  handle_reply now d model_name result_json = Ok (result, d') -> db_step d d'.
Proof.
  unfold handle_reply.
  destruct result_json; simpl; try discriminate.
  destruct (execute_tool now d _ _) as [[out d1]|e] eqn:E; simpl; try discriminate.
  intros H. injection H as _ <-. eapply execute_tool_step; eassumption.
Qed.

Section Steps.

Variables (p : provider) (now : string) (d : db) (user_message : pyval).

Lemma try_model_step model_name result d' :
  try_model p now d user_message model_name = Ok (result, d') -> db_step d d'.
Proof.
  unfold try_model.
  destruct (generate p model_name _); simpl; try discriminate.
  apply handle_reply_step.
Qed.

Lemma fallback_loop_step models last_error result d' t :
  fallback_loop p now d user_message models last_error = (Returned result d', t) ->
  db_step d d'.
Proof.
  revert last_error t.
  induction models as [|m rest IH]; simpl; intros last_error t; [discriminate|].
  destruct (try_model p now d user_message m) as [[r d1]|e] eqn:E.
  - intros H. injection H as _ <- _. eapply try_model_step; eassumption.
  - destruct (fallback_loop p now d user_message rest (Some e)) as [r t'] eqn:F.
    intros H. injection H as -> _. eapply IH; eassumption.
Qed.

Lemma process_message_step api_key :
  db_step d (snd (fst (process_message p now d user_message api_key))).
Proof.
  unfold process_message.
  destruct (negb (py_truthy api_key)); [apply step_none|].
  destruct (fallback_loop p now d user_message candidate_models None)
    as [[result d'|last_error] t] eqn:F.
  - simpl. eapply fallback_loop_step; eassumption.
  - destruct (list_models p); simpl; apply step_none.
Qed.

End Steps.

Lemma process_step p now d data resp d' t :
  process p now d data = Ok (resp, d', t) -> db_step d d'.
Proof.
  unfold process.
  destruct data; simpl; try discriminate.
  set (api_key := match dict_get d0 "api_key" with Some x => x | None => PNone end).
  set (message := match dict_get d0 "message" with Some x => x | None => PNone end).
  destruct (negb (py_truthy api_key)).
  - intros H. injection H as _ <- _. apply step_none.
  - pose proof (process_message_step p now d message api_key) as S.
    destruct (process_message p now d message api_key) as [[result d1] t1].
    simpl in S.
    destruct (dict_has result "error"); intros H; injection H as _ <- _; exact S.
Qed.

Lemma perform_step (d : db) (a : activity) : db_step d (perform d a).
Proof.
  destruct a; simpl; try apply step_none.
  - apply step_ticket.
  - apply step_invoice.
  - apply process_message_step.
  - destruct (process p now d data) as [[[resp d'] t]|e] eqn:E.
    + eapply process_step; eassumption.
    + apply step_none.
Qed.

Lemma registries_wf_db0 : registries_wf db0.
Proof. split; simpl; auto. Qed.

Lemma registries_wf_step (d d' : db) :
  registries_wf d -> db_step d d' -> registries_wf d'.
Proof.
  intros [Ht Hi Hs Hs' Hc] S. split.
  - destruct (db_step_tickets _ _ S) as [E | [t [E [Hid _]]]]; rewrite E.
    + exact Ht.
    + rewrite map_app, length_app, Ht. simpl length.
      rewrite Nat.add_1_r. unfold ticket_ids. rewrite id_numbers_S, map_app.
      simpl. now rewrite Hid.
  - destruct (db_step_invoices _ _ S) as [E | [i [E [Hid _]]]]; rewrite E.
    + exact Hi.
    + rewrite map_app, length_app, Hi. simpl length.
      rewrite Nat.add_1_r. unfold invoice_ids. rewrite id_numbers_S, map_app.
      simpl. now rewrite Hid.
  - destruct (db_step_tickets _ _ S) as [E | [t [E [_ Hst]]]]; rewrite E.
    + exact Hs.
    + apply Forall_app. split; [exact Hs | constructor; [exact Hst | constructor]].
  - destruct (db_step_invoices _ _ S) as [E | [i [E [_ Hst]]]]; rewrite E.
    + exact Hs'.
    + apply Forall_app. split; [exact Hs' | constructor; [exact Hst | constructor]].
  - rewrite (db_step_calendar _ _ S). exact Hc.
Qed.

Lemma registries_wf_lifetime_from (acts : list activity) (d : db) :
  registries_wf d -> registries_wf (lifetime_from d acts).
Proof.
  revert d. induction acts as [|a acts IH]; intros d W; simpl; [exact W|].
  apply IH. eapply registries_wf_step; [exact W | apply perform_step].
Qed.

Lemma registries_wf_lifetime (acts : list activity) : registries_wf (lifetime acts).
Proof. apply registries_wf_lifetime_from, registries_wf_db0. Qed.

Lemma ticket_ids_NoDup (n : nat) : NoDup (ticket_ids n).
Proof.
  unfold ticket_ids. apply Injective_map_NoDup.
  - intros a b H. now apply append_inj_l, str_int_inj in H.
  - apply id_numbers_NoDup.
Qed.

Lemma invoice_ids_NoDup (n : nat) : NoDup (invoice_ids n).
Proof.
  unfold invoice_ids. apply Injective_map_NoDup.
  - intros a b H. now apply append_inj_l, str_int_inj in H.
  - apply id_numbers_NoDup.
Qed.

(** ** C1 *)

(** C1.  A call of [create_ticket] answers with the ID TICK-n and appends a
    ticket of that ID, n being the length of the tickets registry at the call
    plus 101; [generate_invoice] does the same with INV-n and the length of
    the invoices registry plus 1001.  Hence at every point of a lifetime the
    IDs in the tickets registry are TICK-101, TICK-102, ... in order, those
    in the invoices registry INV-1001, INV-1002, ...: the numbers strictly
    increase and no ID occurs twice. *)
Theorem ids_sequential_and_unique :
  (forall now d summary priority,
      let ticket_id :=
        "TICK-" ++ str_int (Z.of_nat (length (tickets d)) + 101) in
      let r := create_ticket now d summary priority in
      fst r = "Ticket created successfully. ID: " ++ ticket_id /\
      map t_id (tickets (snd r)) = (map t_id (tickets d) ++ [ticket_id])%list)
  /\
  (forall now d client_name amount,
      let invoice_id :=
        "INV-" ++ str_int (Z.of_nat (length (invoices d)) + 1001) in
      let r := generate_invoice now d client_name amount in
      fst r = "Invoice generated for " ++ py_str client_name ++ " for $"
                ++ py_str amount ++ ". ID: " ++ invoice_id /\
      map i_id (invoices (snd r)) = (map i_id (invoices d) ++ [invoice_id])%list)
  /\
  (forall acts,
      let d := lifetime acts in
      map t_id (tickets d) = ticket_ids (length (tickets d)) /\
      map i_id (invoices d) = invoice_ids (length (invoices d)) /\
      NoDup (map t_id (tickets d)) /\
      NoDup (map i_id (invoices d)))
  /\
  (forall n,
      StronglySorted Z.lt (id_numbers 101 n) /\
      StronglySorted Z.lt (id_numbers 1001 n) /\
      hd_error (ticket_ids (S n)) = Some "TICK-101" /\
      hd_error (invoice_ids (S n)) = Some "INV-1001").
Proof.
  split; [|split; [|split]].
  - intros now d summary priority. simpl. split; [reflexivity|].
    now rewrite map_app.
  - intros now d client_name amount. simpl. split; [reflexivity|].
    now rewrite map_app.
  - intros acts d.
    destruct (registries_wf_lifetime acts) as [Ht Hi _ _ _]. fold d in Ht, Hi.
    repeat split; try assumption.
    + rewrite Ht. apply ticket_ids_NoDup.
    + rewrite Hi. apply invoice_ids_NoDup.
  - intros n. repeat split; try apply id_numbers_sorted; reflexivity.
Qed.

(** ** One candidate, and the loop over the candidates *)

Lemma handle_reply_dict now d model_name r :
  handle_reply now d model_name (PDict r) =
  (out <- execute_tool now d (get_or r "tool" PNone) (get_or r "args" (PDict [])) ;;
   Ok (success_envelope model_name r (fst out), snd out)).
Proof. reflexivity. Qed.

Lemma execute_tool_unknown now d tool_name tool_args :
  known_tool tool_name = false ->
  execute_tool now d tool_name tool_args = Ok ("Error: Unknown tool selected.", d).
Proof.
  unfold known_tool, execute_tool. intros H.
  repeat (apply orb_false_iff in H; destruct H as [H ?]).
  now rewrite H, H0, H1, H2.
Qed.

Lemma execute_tool_dict now d tool_name a :
  exists out d', execute_tool now d tool_name (PDict a) = Ok (out, d').
Proof.
  by_tool tool_name; cbn [py_get bind]; do 2 eexists;
    solve [reflexivity | apply f_equal, surjective_pairing].
Qed.

Lemma execute_tool_not_dict now d tool_name tool_args :
  known_tool tool_name = true -> is_dict tool_args = false ->
  execute_tool now d tool_name tool_args =
  Raise ("'" ++ type_name tool_args ++ "' object has no attribute 'get'").
Proof.
  unfold known_tool. intros K A.
  by_tool tool_name; try discriminate K;
    destruct tool_args; try discriminate A; reflexivity.
Qed.

Lemma handle_reply_ok now d model_name v :
  reply_ok v = true ->
  exists result d', handle_reply now d model_name v = Ok (result, d').
Proof.
  destruct v as [ | | | | | |r]; try discriminate. simpl reply_ok.
  rewrite handle_reply_dict. intros H.
  destruct (known_tool (get_or r "tool" PNone)) eqn:K.
  - destruct (get_or r "args" (PDict [])) as [ | | | | | |a]; try discriminate.
    destruct (execute_tool_dict now d (get_or r "tool" PNone) a) as [out [d' E]].
    rewrite E. simpl. eauto.
  - rewrite execute_tool_unknown by assumption. simpl. eauto.
Qed.

Lemma handle_reply_not_ok now d model_name v :
  reply_ok v = false -> exists e, handle_reply now d model_name v = Raise e.
Proof.
  destruct v as [ | | | | | |r]; try solve [intros _; eexists; reflexivity].
  simpl reply_ok.
  rewrite handle_reply_dict.
  destruct (known_tool (get_or r "tool" PNone)) eqn:K; [|discriminate].
  intros A. rewrite execute_tool_not_dict by assumption. simpl. eauto.
Qed.

Section Loop.

Variables (p : provider) (now : string) (d : db) (user_message : pyval).

Lemma try_model_ok model_name :
  attempt_ok p user_message model_name = true ->
  exists result d', try_model p now d user_message model_name = Ok (result, d').
Proof.
  unfold attempt_ok, try_model.
  destruct (generate p model_name (prompt user_message)) as [v|e]; [|discriminate].
  simpl. apply handle_reply_ok.
Qed.

Lemma try_model_not_ok model_name :
  attempt_ok p user_message model_name = false ->
  exists e, try_model p now d user_message model_name = Raise e.
Proof.
  unfold attempt_ok, try_model.
  destruct (generate p model_name (prompt user_message)) as [v|e]; simpl.
  - apply handle_reply_not_ok.
  - eauto.
Qed.

Lemma fallback_loop_first_ok before m after last_error result d' :
  (forall m', In m' before ->
              exists e, try_model p now d user_message m' = Raise e) ->
  try_model p now d user_message m = Ok (result, d') ->
  fallback_loop p now d user_message (before ++ m :: after)%list last_error =
  (Returned result d', generate_calls user_message (before ++ [m])%list).
Proof.
  revert last_error.
  induction before as [|b before IH]; intros last_error Hb Hm; simpl.
  - now rewrite Hm.
  - destruct (Hb b (or_introl eq_refl)) as [e E]. rewrite E.
    rewrite (IH (Some e)); [reflexivity | | assumption].
    intros m' Hin. apply Hb. now right.
Qed.

Lemma fallback_loop_all_fail models last_error :
  (forall m, In m models ->
             exists e, try_model p now d user_message m = Raise e) ->
  exists last_error',
    fallback_loop p now d user_message models last_error =
    (AllFailed last_error', generate_calls user_message models) /\
    (models = [] -> last_error' = last_error) /\
    (forall e, try_model p now d user_message (last models EmptyString) = Raise e ->
               models <> [] -> last_error' = Some e).
Proof.
  revert last_error.
  induction models as [|m rest IH]; intros last_error H; simpl.
  - exists last_error. repeat split; auto. intros e _ C. now elim C.
  - destruct (H m (or_introl eq_refl)) as [e E]. rewrite E.
    destruct (IH (Some e)) as [le [F [Hnil Hlast]]].
    { intros m' Hin. apply H. now right. }
    rewrite F. exists le. repeat split; try discriminate.
    intros e' E' _. destruct rest as [|m2 rest].
    + rewrite Hnil by reflexivity. congruence.
    + apply Hlast; [exact E' | discriminate].
Qed.

Lemma forallb_not_ok before :
  forallb (fun m' => negb (attempt_ok p user_message m')) before = true ->
  forall m', In m' before ->
             exists e, try_model p now d user_message m' = Raise e.
Proof.
  intros H m' Hin. rewrite forallb_forall in H.
  apply try_model_not_ok. specialize (H m' Hin).
  now apply negb_true_iff in H.
Qed.

Lemma process_message_returns api_key before m after result d' :
  py_truthy api_key = true ->
  candidate_models = (before ++ m :: after)%list ->
  (forall m', In m' before ->
              exists e, try_model p now d user_message m' = Raise e) ->
  try_model p now d user_message m = Ok (result, d') ->
  process_message p now d user_message api_key =
  (result, d', Configure api_key :: generate_calls user_message (before ++ [m])%list).
Proof.
  intros K C Hb Hm. unfold process_message. rewrite K, C. simpl negb. cbv iota.
  now rewrite (fallback_loop_first_ok _ _ _ _ _ _ Hb Hm).
Qed.

End Loop.

(** ** C2 *)

(** C2, the claim as stated fails: the first candidate's request and parse
    succeed, its reply selects send_reply with [args: null], the lookup on
    [args] raises inside the [try], and the loop goes on to the second
    candidate, whose name the result records. *)
Lemma first_parsed_reply_may_be_skipped : ~ returns_at_first_parsed_reply.
Proof.
  intros H.
  destruct (H stub_args_null "2025-01-01 09:00" db0 (PStr "hi") (PStr "key")
              [] "gemini-2.5-flash" ["gemini-2.0-flash"; "gemini-1.5-flash"]
              (PDict [("tool", PStr "send_reply"); ("args", PNone)])
              eq_refl eq_refl) as [result [d' [E M]]].
  - intros m' [].
  - reflexivity.
  - vm_compute in E. injection E as <- _ _. discriminate M.
Qed.

(** C2, amended.  With a credential that is not empty the loop tries the
    candidates gemini-2.5-flash, gemini-2.0-flash, gemini-1.5-flash in that
    order, one attempt each.  At the first candidate whose attempt completes
    (the request and the parse succeed, the parsed reply is a JSON object,
    and its args is an object or absent when its tool is one of the four
    names; a reply whose tool is none of the four always completes) it
    returns a result without an error key whose model_used is that
    candidate's name followed by " (Gemini SDK)", and the provider calls made
    are exactly the attempts up to and including that candidate. *)
Theorem first_completed_candidate_returns
    p now d user_message api_key before m after :
  py_truthy api_key = true ->
  candidate_models = (before ++ m :: after)%list ->
  forallb (fun m' => negb (attempt_ok p user_message m')) before = true ->
  attempt_ok p user_message m = true ->
  candidate_models = ["gemini-2.5-flash"; "gemini-2.0-flash"; "gemini-1.5-flash"] /\
  exists result d',
    process_message p now d user_message api_key =
    (result, d',
     Configure api_key :: generate_calls user_message (before ++ [m])%list) /\
    try_model p now d user_message m = Ok (result, d') /\
    dict_get result "model_used" = Some (PStr (m ++ " (Gemini SDK)")) /\
    dict_has result "error" = false.
Proof.
  intros K C Hb Hm. split; [reflexivity|].
  destruct (try_model_ok p now d _ _ Hm) as [result [d' E]].
  exists result, d'. split; [|split; [exact E|]].
  - eapply process_message_returns; eauto using forallb_not_ok.
  - unfold try_model in E.
    destruct (generate p m (prompt user_message)) as [v|e]; [|discriminate].
    simpl in E. destruct v as [ | | | | | |r]; try discriminate.
    rewrite handle_reply_dict in E.
    destruct (execute_tool now d _ _) as [out|e]; [|discriminate].
    simpl in E. injection E as <- _. split; reflexivity.
Qed.

Lemma first_completed_candidate_returns_witness :
  attempt_ok stub_third_succeeds (PStr "hi") "gemini-2.5-flash" = false /\
  attempt_ok stub_third_succeeds (PStr "hi") "gemini-2.0-flash" = false /\
  attempt_ok stub_third_succeeds (PStr "hi") "gemini-1.5-flash" = true /\
  exists result d',
    process_message stub_third_succeeds "2025-01-01 09:00" db0 (PStr "hi")
                    (PStr "key") =
    (result, d',
     Configure (PStr "key") :: generate_calls (PStr "hi") candidate_models) /\
    dict_get result "model_used" = Some (PStr "gemini-1.5-flash (Gemini SDK)").
Proof.
  repeat (split; [reflexivity|]).
  destruct (first_completed_candidate_returns
              stub_third_succeeds "2025-01-01 09:00" db0 (PStr "hi") (PStr "key")
              ["gemini-2.5-flash"; "gemini-2.0-flash"] "gemini-1.5-flash" []
              eq_refl eq_refl eq_refl eq_refl)
    as [_ [result [d' [E [_ [M _]]]]]].
  exists result, d'. split; [exact E | exact M].
Defined.

(** ** C3 *)

(** C3.  When the credential is empty or absent (not truthy),
    [process_message] returns the error envelope at once: no provider call
    is made and the registries are the ones it was given; and POST /process
    on a body whose api_key is that credential responds 400 with exactly
    the envelope error: Missing API Key, again without any call or change. *)
Theorem missing_api_key_rejected p now d user_message api_key :
  py_truthy api_key = false ->
  process_message p now d user_message api_key =
    ([("error", PStr "Missing API Key")], d, []) /\
  forall items,
    get_or items "api_key" PNone = api_key ->
    process p now d (PDict items) =
    Ok ({| status := 400; body := PDict [("error", PStr "Missing API Key")] |},
        d, []).
Proof.
  intros K. split.
  - unfold process_message. now rewrite K.
  - intros items G. unfold process, get_or in *. simpl. rewrite G, K. reflexivity.
Qed.

Lemma missing_api_key_rejected_witness :
  py_truthy PNone = false /\
  process stub_third_succeeds "2025-01-01 09:00" db0
          (PDict [("message", PStr "book a demo")]) =
  Ok ({| status := 400; body := PDict [("error", PStr "Missing API Key")] |},
      db0, []).
Proof.
  split; [reflexivity|].
  apply (proj2 (missing_api_key_rejected stub_third_succeeds "2025-01-01 09:00"
                  db0 (PStr "book a demo") PNone eq_refl)).
  reflexivity.
Defined.

(** ** C4 *)

(** C4.  When the attempt raises for every candidate, [process_message]
    makes one diagnostic list-models call and returns an envelope whose only
    key is error (so no tool_used key), with the registries as they were.
    The error text holds the message of the last candidate's exception; when
    the diagnostic call succeeds it also holds the first five (fewer if there
    are fewer) of the model names listed, and when that call raises it holds
    the last exception's message alone. *)
Theorem all_candidates_fail p now d user_message api_key e :
  py_truthy api_key = true ->
  (forall m, In m candidate_models ->
             exists e', try_model p now d user_message m = Raise e') ->
  try_model p now d user_message (last candidate_models EmptyString) = Raise e ->
  let error_text :=
    match list_models p with
    | Ok available_models =>
        "All models failed. Last error: " ++ e ++ ". Available: "
          ++ py_str (PList (map PStr (firstn 5 available_models)))
    | Raise _ => "All models failed. Last error: " ++ e
    end in
  let result := [("error", PStr error_text)] in
  process_message p now d user_message api_key =
    (result, d,
     Configure api_key
       :: (generate_calls user_message candidate_models ++ [ListModels])%list) /\
  dict_has result "error" = true /\
  dict_has result "tool_used" = false.
Proof.
  intros K Hall Hlast error_text result. split; [|split; reflexivity].
  unfold process_message. rewrite K. simpl negb. cbv iota.
  destruct (fallback_loop_all_fail p now d user_message candidate_models None Hall)
    as [le [F [_ L]]].
  rewrite F. rewrite (L e Hlast) by discriminate.
  unfold result, error_text. destruct (list_models p); reflexivity.
Qed.

Lemma all_candidates_fail_witness :
  process_message stub_all_fail "2025-01-01 09:00" db0 (PStr "hi") (PStr "key") =
    ([("error",
       PStr ("All models failed. Last error: 404 model not found. Available: "
               ++ "['models/a', 'models/b', 'models/c', 'models/d', 'models/e']"))],
     db0,
     Configure (PStr "key")
       :: (generate_calls (PStr "hi") candidate_models ++ [ListModels])%list) /\
  process_message stub_all_fail_no_list "2025-01-01 09:00" db0 (PStr "hi")
                  (PStr "key") =
    ([("error", PStr "All models failed. Last error: 404 model not found")],
     db0,
     Configure (PStr "key")
       :: (generate_calls (PStr "hi") candidate_models ++ [ListModels])%list).
Proof.
  split.
  - refine (proj1 (all_candidates_fail stub_all_fail "2025-01-01 09:00" db0
                     (PStr "hi") (PStr "key") "404 model not found"
                     eq_refl _ eq_refl)).
    intros m [<-|[<-|[<-|[]]]]; eexists; reflexivity.
  - refine (proj1 (all_candidates_fail stub_all_fail_no_list "2025-01-01 09:00"
                     db0 (PStr "hi") (PStr "key") "404 model not found"
                     eq_refl _ eq_refl)).
    intros m [<-|[<-|[<-|[]]]]; eexists; reflexivity.
Defined.

(** ** C5 *)

Lemma process_message_unknown_tool
      p now d user_message api_key before m after r :
  py_truthy api_key = true ->
  candidate_models = (before ++ m :: after)%list ->
  forallb (fun m' => negb (attempt_ok p user_message m')) before = true ->
  generate p m (prompt user_message) = Ok (PDict r) ->
  known_tool (get_or r "tool" PNone) = false ->
  process_message p now d user_message api_key =
  (success_envelope m r "Error: Unknown tool selected.", d,
   Configure api_key :: generate_calls user_message (before ++ [m])%list).
Proof.
  intros K C Hb G U.
  eapply process_message_returns; eauto using forallb_not_ok.
  unfold try_model. rewrite G. simpl bind. rewrite handle_reply_dict.
  now rewrite execute_tool_unknown.
Qed.

(** C5, the claim as stated fails: the output for an unrecognised tool is not
    the text Unknown tool selected. *)
Lemma unknown_tool_output_differs :
  ~ unknown_tool_output_is "Unknown tool selected".
Proof.
  intros H.
  destruct (H stub_unknown_tool "2025-01-01 09:00" db0 (PStr "book a demo")
              (PStr "key") [] "gemini-2.5-flash"
              ["gemini-2.0-flash"; "gemini-1.5-flash"]
              [("thought", PStr "a demo"); ("tool", PStr "book_demo");
               ("args", PDict [("date_str", PStr "tomorrow")])]
              eq_refl eq_refl eq_refl eq_refl eq_refl) as [_ O].
  vm_compute in O. discriminate O.
Qed.

(** C5, amended.  When the first candidate whose attempt completes replies
    with a JSON object whose tool value is none of create_ticket,
    check_calendar, generate_invoice, send_reply, the request does not fail:
    [process_message] returns a result without error key whose tool_output
    is the text "Error: Unknown tool selected." *)
Theorem unknown_tool_is_not_a_failure
    p now d user_message api_key before m after r :
  py_truthy api_key = true ->
  candidate_models = (before ++ m :: after)%list ->
  forallb (fun m' => negb (attempt_ok p user_message m')) before = true ->
  generate p m (prompt user_message) = Ok (PDict r) ->
  known_tool (get_or r "tool" PNone) = false ->
  let result := fst (fst (process_message p now d user_message api_key)) in
  dict_has result "error" = false /\
  dict_get result "tool_output" = Some (PStr "Error: Unknown tool selected.").
Proof.
  intros K C Hb G U.
  rewrite (process_message_unknown_tool _ _ _ _ _ _ _ _ _ K C Hb G U).
  split; reflexivity.
Qed.

Lemma unknown_tool_is_not_a_failure_witness :
  generate stub_unknown_tool "gemini-2.5-flash" (prompt (PStr "book a demo")) =
    Ok (PDict [("thought", PStr "a demo"); ("tool", PStr "book_demo");
               ("args", PDict [("date_str", PStr "tomorrow")])]) /\
  known_tool (PStr "book_demo") = false /\
  let result :=
    fst (fst (process_message stub_unknown_tool "2025-01-01 09:00" db0
                              (PStr "book a demo") (PStr "key"))) in
  dict_has result "error" = false /\
  dict_get result "tool_output" = Some (PStr "Error: Unknown tool selected.").
Proof.
  split; [reflexivity|]. split; [reflexivity|].
  exact (unknown_tool_is_not_a_failure
           stub_unknown_tool "2025-01-01 09:00" db0 (PStr "book a demo")
           (PStr "key") [] "gemini-2.5-flash"
           ["gemini-2.0-flash"; "gemini-1.5-flash"]
           [("thought", PStr "a demo"); ("tool", PStr "book_demo");
            ("args", PDict [("date_str", PStr "tomorrow")])]
           eq_refl eq_refl eq_refl eq_refl eq_refl).
Defined.

(** ** C10 *)

(** C10.  When the first candidate whose attempt completes replies with a
    JSON object whose tool value is none of the four tool names, no tool
    function runs: the registries [process_message] hands back are the very
    ones it was given, and the result's tool_used is the reply's tool value
    as it came, None when the reply has no tool key. *)
Theorem unknown_tool_runs_no_action
    p now d user_message api_key before m after r :
  py_truthy api_key = true ->
  candidate_models = (before ++ m :: after)%list ->
  forallb (fun m' => negb (attempt_ok p user_message m')) before = true ->
  generate p m (prompt user_message) = Ok (PDict r) ->
  known_tool (get_or r "tool" PNone) = false ->
  let result := fst (fst (process_message p now d user_message api_key)) in
  let d' := snd (fst (process_message p now d user_message api_key)) in
  d' = d /\
  tickets d' = tickets d /\ invoices d' = invoices d /\ calendar d' = calendar d /\
  dict_has result "error" = false /\
  dict_get result "tool_used" =
    Some (match dict_get r "tool" with Some x => x | None => PNone end).
Proof.
  intros K C Hb G U.
  rewrite (process_message_unknown_tool _ _ _ _ _ _ _ _ _ K C Hb G U).
  repeat split; reflexivity.
Qed.

Lemma unknown_tool_runs_no_action_witness :
  known_tool (get_or [("thought", PStr "nothing to do")] "tool" PNone) = false /\
  let r := process_message stub_no_tool "2025-01-01 09:00" db0 (PStr "hm")
                           (PStr "key") in
  snd (fst r) = db0 /\
  dict_get (fst (fst r)) "tool_used" = Some PNone.
Proof.
  split; [reflexivity|].
  destruct (unknown_tool_runs_no_action
              stub_no_tool "2025-01-01 09:00" db0 (PStr "hm") (PStr "key")
              [] "gemini-2.5-flash" ["gemini-2.0-flash"; "gemini-1.5-flash"]
              [("thought", PStr "nothing to do")]
              eq_refl eq_refl eq_refl eq_refl eq_refl)
    as [D [_ [_ [_ [_ T]]]]].
  split; [exact D | exact T].
Defined.

(** ** C6 *)

Lemma execute_tool_check_calendar now d a :
  execute_tool now d (PStr "check_calendar") (PDict a) =
  Ok (check_calendar d (get_or a "date_str" PNone), d).
Proof. reflexivity. Qed.

Lemma execute_tool_send_reply now d a :
  execute_tool now d (PStr "send_reply") (PDict a) =
  Ok (send_reply (get_or a "message" PNone), d).
Proof. reflexivity. Qed.

Lemma execute_tool_create_ticket now d a :
  execute_tool now d (PStr "create_ticket") (PDict a) =
  Ok (create_ticket now d (get_or a "summary" PNone)
                    (get_or a "priority" (PStr "Medium"))).
Proof. reflexivity. Qed.

Lemma execute_tool_generate_invoice now d a :
  execute_tool now d (PStr "generate_invoice") (PDict a) =
  Ok (generate_invoice now d (get_or a "client_name" PNone)
                       (get_or a "amount" PNone)).
Proof. reflexivity. Qed.

(** C6.  The calendar registry starts with exactly the two seeded events,
    and [check_calendar] on it returns the text Existing events: followed by
    the JSON list of those two events.  At every point of a lifetime the
    calendar is still the seeded one, so [check_calendar] keeps returning
    that text.  [create_ticket] changes the tickets registry only,
    [generate_invoice] the invoices registry only, and dispatching
    check_calendar or send_reply hands the registries back as they were. *)
Theorem calendar_seeded_and_never_changed :
  calendar db0 =
    [ {| time := "2023-10-27 10:00"; event := "Team Standup" |};
      {| time := "2023-10-27 14:00"; event := "Client Call" |} ] /\
  (forall date_str,
      check_calendar db0 date_str =
      "Existing events: [{"
        ++ quoted "time" ++ ": " ++ quoted "2023-10-27 10:00" ++ ", "
        ++ quoted "event" ++ ": " ++ quoted "Team Standup" ++ "}, {"
        ++ quoted "time" ++ ": " ++ quoted "2023-10-27 14:00" ++ ", "
        ++ quoted "event" ++ ": " ++ quoted "Client Call" ++ "}]") /\
  (forall acts date_str,
      calendar (lifetime acts) = calendar db0 /\
      check_calendar (lifetime acts) date_str = check_calendar db0 date_str) /\
  (forall now d summary priority,
      let d' := snd (create_ticket now d summary priority) in
      invoices d' = invoices d /\ calendar d' = calendar d) /\
  (forall now d client_name amount,
      let d' := snd (generate_invoice now d client_name amount) in
      tickets d' = tickets d /\ calendar d' = calendar d) /\
  (forall now d a,
      execute_tool now d (PStr "check_calendar") (PDict a) =
        Ok (check_calendar d (get_or a "date_str" PNone), d) /\
      execute_tool now d (PStr "send_reply") (PDict a) =
        Ok (send_reply (get_or a "message" PNone), d)) /\
  (forall d x,
      perform d (CallCheckCalendar x) = d /\ perform d (CallSendReply x) = d).
Proof.
  split; [reflexivity|]. split; [intros; reflexivity|].
  split; [|repeat split; reflexivity].
  intros acts date_str.
  pose proof (wf_calendar _ (registries_wf_lifetime acts)) as E.
  split; [exact E|]. unfold check_calendar. now rewrite E.
Qed.

(** ** C7 *)

(** C7.  [send_reply] on a text returns Reply sent: followed by the text in
    single quotes.  When the first candidate whose attempt completes selects
    send_reply with an args object whose message is a text, the result's
    tool_output is that confirmation and the registries come back unchanged;
    for the message hello the output is exactly Reply sent: 'hello'. *)
Theorem send_reply_echoes
    p now d user_message api_key before m after r a text :
  py_truthy api_key = true ->
  candidate_models = (before ++ m :: after)%list ->
  forallb (fun m' => negb (attempt_ok p user_message m')) before = true ->
  generate p m (prompt user_message) = Ok (PDict r) ->
  dict_get r "tool" = Some (PStr "send_reply") ->
  dict_get r "args" = Some (PDict a) ->
  dict_get a "message" = Some (PStr text) ->
  send_reply (PStr text) = "Reply sent: '" ++ text ++ "'" /\
  execute_tool now d (PStr "send_reply") (PDict [("message", PStr "hello")]) =
    Ok ("Reply sent: 'hello'", d) /\
  dict_get (fst (fst (process_message p now d user_message api_key)))
           "tool_output" = Some (PStr ("Reply sent: '" ++ text ++ "'")) /\
  snd (fst (process_message p now d user_message api_key)) = d.
Proof.
  intros K C Hb G T A M.
  split; [reflexivity|]. split; [reflexivity|].
  assert (E : try_model p now d user_message m =
              Ok (success_envelope m r ("Reply sent: '" ++ text ++ "'"), d)).
  { unfold try_model. rewrite G. simpl bind. rewrite handle_reply_dict.
    unfold get_or at 1 2. rewrite T, A, execute_tool_send_reply.
    unfold get_or at 1. rewrite M. reflexivity. }
  rewrite (process_message_returns _ _ _ _ _ _ _ _ _ _ K C
             (forallb_not_ok _ now d _ _ Hb) E).
  split; reflexivity.
Qed.

Lemma send_reply_echoes_witness :
  attempt_ok stub_third_succeeds (PStr "hi") "gemini-2.5-flash" = false /\
  attempt_ok stub_third_succeeds (PStr "hi") "gemini-2.0-flash" = false /\
  dict_get (fst (fst (process_message stub_third_succeeds "2025-01-01 09:00" db0
                                      (PStr "hi") (PStr "key"))))
           "tool_output" = Some (PStr "Reply sent: 'hello'") /\
  snd (fst (process_message stub_third_succeeds "2025-01-01 09:00" db0
                            (PStr "hi") (PStr "key"))) = db0.
Proof.
  split; [reflexivity|]. split; [reflexivity|].
  exact (proj2 (proj2
    (send_reply_echoes
       stub_third_succeeds "2025-01-01 09:00" db0 (PStr "hi") (PStr "key")
       ["gemini-2.5-flash"; "gemini-2.0-flash"] "gemini-1.5-flash" []
       [("thought", PStr "greet"); ("tool", PStr "send_reply");
        ("args", PDict [("message", PStr "hello")])]
       [("message", PStr "hello")] "hello"
       eq_refl eq_refl eq_refl eq_refl eq_refl eq_refl eq_refl))).
Defined.

(** ** C8 *)

(** C8, the claim as stated fails: a parsed reply that selects send_reply
    and carries [args: null] leaves the arguments out altogether, and the
    lookup on args raises AttributeError in place of a confirmation. *)
Lemma args_null_raises : ~ every_reply_returns_normally.
Proof.
  intros H.
  destruct (H "2025-01-01 09:00" db0 "gemini-2.5-flash"
              [("tool", PStr "send_reply"); ("args", PNone)] eq_refl)
    as [result [d' E]].
  vm_compute in E. discriminate E.
Qed.

(** C8, amended.  When the parsed reply is a JSON object whose args is a
    JSON object, or is absent and so defaults to the empty object, what
    follows the parse raises nothing, whichever tool is selected, and
    returns the success envelope with the tool's confirmation.  A field that
    args lacks reaches the tool function as None (priority as "Medium"):
    the ticket is stored with that summary and priority, the invoice with
    that client and amount, and the confirmations format None as the text
    None (Invoice generated for None for $None, Reply sent: 'None'). *)
Theorem missing_arguments_do_not_raise now d model_name r a :
  get_or r "args" (PDict []) = PDict a ->
  let ticket :=
    {| t_id := "TICK-" ++ str_int (Z.of_nat (length (tickets d)) + 101);
       t_summary := get_or a "summary" PNone;
       t_priority := get_or a "priority" (PStr "Medium");
       t_status := "Open";
       t_created_at := now |} in
  let invoice :=
    {| i_id := "INV-" ++ str_int (Z.of_nat (length (invoices d)) + 1001);
       i_client := get_or a "client_name" PNone;
       i_amount := get_or a "amount" PNone;
       i_status := "Sent";
       i_created_at := now |} in
  (exists result d', handle_reply now d model_name (PDict r) = Ok (result, d')) /\
  (dict_get r "tool" = Some (PStr "create_ticket") ->
   handle_reply now d model_name (PDict r) =
   Ok (success_envelope model_name r
         ("Ticket created successfully. ID: " ++ t_id ticket),
       {| tickets := (tickets d ++ [ticket])%list;
          invoices := invoices d;
          calendar := calendar d |})) /\
  (dict_get r "tool" = Some (PStr "generate_invoice") ->
   handle_reply now d model_name (PDict r) =
   Ok (success_envelope model_name r
         ("Invoice generated for " ++ py_str (i_client invoice) ++ " for $"
            ++ py_str (i_amount invoice) ++ ". ID: " ++ i_id invoice),
       {| tickets := tickets d;
          invoices := (invoices d ++ [invoice])%list;
          calendar := calendar d |})) /\
  (dict_get r "tool" = Some (PStr "send_reply") ->
   handle_reply now d model_name (PDict r) =
   Ok (success_envelope model_name r
         ("Reply sent: '" ++ py_str (get_or a "message" PNone) ++ "'"),
       d)) /\
  (dict_get r "tool" = Some (PStr "check_calendar") ->
   handle_reply now d model_name (PDict r) =
   Ok (success_envelope model_name r
         (check_calendar d (get_or a "date_str" PNone)),
       d)) /\
  (forall key default, dict_get a key = None -> get_or a key default = default) /\
  py_str PNone = "None" /\
  (forall tool_name,
      exists out d', execute_tool now d tool_name (PDict a) = Ok (out, d')) /\
  execute_tool now d (PStr "create_ticket") (PDict a) =
    Ok (create_ticket now d
          (match dict_get a "summary" with Some x => x | None => PNone end)
          (match dict_get a "priority" with Some x => x | None => PStr "Medium" end)) /\
  execute_tool now d (PStr "generate_invoice") (PDict a) =
    Ok (generate_invoice now d
          (match dict_get a "client_name" with Some x => x | None => PNone end)
          (match dict_get a "amount" with Some x => x | None => PNone end)) /\
  execute_tool now d (PStr "send_reply") (PDict a) =
    Ok (send_reply
          (match dict_get a "message" with Some x => x | None => PNone end), d) /\
  fst (generate_invoice now d PNone PNone) =
    "Invoice generated for None for $None. ID: INV-"
      ++ str_int (Z.of_nat (length (invoices d)) + 1001) /\
  send_reply PNone = "Reply sent: 'None'" /\
  fst (create_ticket now d PNone (PStr "Medium")) =
    "Ticket created successfully. ID: TICK-"
      ++ str_int (Z.of_nat (length (tickets d)) + 101) /\
  map t_summary (tickets (snd (create_ticket now d PNone (PStr "Medium")))) =
    (map t_summary (tickets d) ++ [PNone])%list.
Proof.
  intros A ticket invoice. split.
  { apply handle_reply_ok. simpl. rewrite A.
    now destruct (known_tool (get_or r "tool" PNone)). }
  split.
  { intros T. rewrite handle_reply_dict, A. unfold get_or at 1.
    rewrite T, execute_tool_create_ticket. reflexivity. }
  split.
  { intros T. rewrite handle_reply_dict, A. unfold get_or at 1.
    rewrite T, execute_tool_generate_invoice. reflexivity. }
  split.
  { intros T. rewrite handle_reply_dict, A. unfold get_or at 1.
    rewrite T, execute_tool_send_reply. reflexivity. }
  split.
  { intros T. rewrite handle_reply_dict, A. unfold get_or at 1.
    rewrite T, execute_tool_check_calendar. reflexivity. }
  split.
  { intros key default N. unfold get_or. now rewrite N. }
  split; [reflexivity|].
  split; [intros tool_name; apply execute_tool_dict|].
  repeat split; try reflexivity.
  simpl. now rewrite map_app.
Qed.

Lemma missing_arguments_do_not_raise_witness :
  get_or [("tool", PStr "generate_invoice")] "args" (PDict []) = PDict [] /\
  handle_reply "2025-01-01 09:00" db0 "gemini-2.5-flash"
               (PDict [("tool", PStr "generate_invoice")]) =
  Ok ([ ("thought", PNone);
        ("tool_used", PStr "generate_invoice");
        ("tool_output",
         PStr "Invoice generated for None for $None. ID: INV-1001");
        ("model_used", PStr "gemini-2.5-flash (Gemini SDK)") ],
      {| tickets := [];
         invoices := [ {| i_id := "INV-1001"; i_client := PNone;
                          i_amount := PNone; i_status := "Sent";
                          i_created_at := "2025-01-01 09:00" |} ];
         calendar := calendar db0 |}).
Proof.
  split; [reflexivity|].
  exact (proj1 (proj2 (proj2
           (missing_arguments_do_not_raise
              "2025-01-01 09:00" db0 "gemini-2.5-flash"
              [("tool", PStr "generate_invoice")] [] eq_refl)))
           eq_refl).
Defined.

(** ** C9 *)

Lemma tickets_kept (acts : list activity) (d : db) :
  exists later, tickets (lifetime_from d acts) = (tickets d ++ later)%list.
Proof.
  revert d. induction acts as [|a acts IH]; intros d.
  - exists []. simpl. now rewrite app_nil_r.
  - destruct (IH (perform d a)) as [later E]. change (lifetime_from d (a :: acts))
      with (lifetime_from (perform d a) acts). rewrite E.
    destruct (db_step_tickets _ _ (perform_step d a)) as [S | [t [S _]]];
      rewrite S.
    + now exists later.
    + exists (t :: later). now rewrite <- app_assoc.
Qed.

(** C9, the claim as stated fails: a reply that asks for priority Urgent
    leaves a ticket of that priority in the registry. *)
Lemma ticket_priority_outside_enum : ~ priorities_in_enum.
Proof.
  intros H.
  specialize (H [ PostProcess stub_urgent "2025-01-01 09:00"
                    (PDict [("message", PStr "the server is down");
                            ("api_key", PStr "key")]) ]
                {| t_id := "TICK-101"; t_summary := PStr "server down";
                   t_priority := PStr "Urgent"; t_status := "Open";
                   t_created_at := "2025-01-01 09:00" |}
                (or_introl eq_refl)).
  simpl in H. destruct H as [H|[H|[H|[]]]]; discriminate H.
Qed.

(** C9, amended.  Every ticket in the registry, at every point of a
    lifetime, has status "Open".  The priority of a ticket created through
    the dispatch is the value the reply's args hold under priority, whatever
    it is (it is not checked against Low, Medium, High), and "Medium" when
    args hold no priority.  The tickets present at some point stay, in the
    same places and unchanged, whatever is done afterwards. *)
Theorem tickets_open_and_kept :
  (forall acts, Forall (fun t => t_status t = "Open") (tickets (lifetime acts))) /\
  (forall now d a,
      exists out t,
        execute_tool now d (PStr "create_ticket") (PDict a) =
        Ok (out, {| tickets := (tickets d ++ [t])%list;
                    invoices := invoices d;
                    calendar := calendar d |}) /\
        t_status t = "Open" /\
        t_priority t =
          match dict_get a "priority" with Some x => x | None => PStr "Medium" end) /\
  (forall d acts,
      exists later, tickets (lifetime_from d acts) = (tickets d ++ later)%list).
Proof.
  split; [|split].
  - intros acts. apply (wf_ticket_status _ (registries_wf_lifetime acts)).
  - intros now d a. rewrite execute_tool_create_ticket.
    do 2 eexists. split; [reflexivity|]. split; reflexivity.
  - intros d acts. apply tickets_kept.
Qed.

(** * Further properties of the dispatch loop and the facade *)

Lemma existsb_split {A : Type} (f : A -> bool) (l : list A) :
  existsb f l = true ->
  exists before m after,
    l = (before ++ m :: after)%list /\
    forallb (fun x => negb (f x)) before = true /\ f m = true.
Proof.
  induction l as [|x l IH]; simpl; [discriminate|].
  destruct (f x) eqn:F; simpl.
  - intros _. exists [], x, l. auto.
  - intros H. destruct (IH H) as [before [m [after [-> [B M]]]]].
    exists (x :: before), m, after. simpl. rewrite F, B. auto.
Qed.

Lemma existsb_none {A : Type} (f : A -> bool) (l : list A) :
  existsb f l = false -> forall x, In x l -> f x = false.
Proof.
  induction l as [|y l IH]; simpl; [intros _ x []|].
  intros H x [<-|Hin]; apply orb_false_iff in H; destruct H as [F E]; auto.
Qed.

Section Request.

Variables (p : provider) (now : string) (d : db) (user_message : pyval).

Lemma try_model_attempt_error model_name :
  attempt_ok p user_message model_name = false ->
  try_model p now d user_message model_name =
  Raise (attempt_error p user_message model_name).
Proof.
  unfold attempt_ok, attempt_error, try_model.
  destruct (generate p model_name (prompt user_message)) as [v|e];
    [|reflexivity].
  simpl bind. destruct v as [ | | | | | |r]; try reflexivity.
  simpl reply_ok. rewrite handle_reply_dict.
  destruct (known_tool (get_or r "tool" PNone)) eqn:K; [|discriminate].
  intros A. now rewrite execute_tool_not_dict.
Qed.

Lemma fallback_loop_calls models last_error :
  snd (fallback_loop p now d user_message models last_error) =
  generate_calls user_message
    (firstn (attempts_made p user_message models) models).
Proof.
  revert last_error. induction models as [|m rest IH]; intros last_error.
  - reflexivity.
  - simpl. destruct (attempt_ok p user_message m) eqn:A.
    + destruct (try_model_ok p now d user_message m A) as [result [d' E]].
      now rewrite E.
    + destruct (try_model_not_ok p now d user_message m A) as [e E].
      rewrite E. specialize (IH (Some e)).
      destruct (fallback_loop p now d user_message rest (Some e)) as [r t].
      simpl in *. now rewrite IH.
Qed.

Lemma attempts_made_bounds models :
  attempts_made p user_message models <= length models /\
  (models <> [] -> 1 <= attempts_made p user_message models).
Proof.
  induction models as [|m rest [IH _]]; simpl.
  - split; [lia | intros C; now elim C].
  - destruct (attempt_ok p user_message m); split; intros; lia.
Qed.

Lemma attempts_made_all models :
  existsb (attempt_ok p user_message) models = false ->
  attempts_made p user_message models = length models.
Proof.
  induction models as [|m rest IH]; simpl; [reflexivity|].
  intros H. apply orb_false_iff in H. destruct H as [A E].
  rewrite A. now rewrite IH.
Qed.

Lemma attempts_made_first before m after :
  forallb (fun m' => negb (attempt_ok p user_message m')) before = true ->
  attempt_ok p user_message m = true ->
  attempts_made p user_message (before ++ m :: after)%list = S (length before).
Proof.
  intros B M. induction before as [|b before IH]; simpl.
  - now rewrite M.
  - simpl in B. apply andb_true_iff in B. destruct B as [Nb B].
    apply negb_true_iff in Nb. rewrite Nb. now rewrite IH.
Qed.

(** The three ways a call of [process_message] can go. *)
Lemma process_message_cases api_key :
  let pm := process_message p now d user_message api_key in
  (py_truthy api_key = false /\
   pm = ([("error", PStr "Missing API Key")], d, [])) \/
  (py_truthy api_key = true /\ some_attempt_ok p user_message = false /\
   exists text,
     pm = ([("error", PStr text)], d,
           Configure api_key
             :: (generate_calls user_message candidate_models ++ [ListModels])%list)) \/
  (py_truthy api_key = true /\ some_attempt_ok p user_message = true /\
   exists before m after r out d',
     candidate_models = (before ++ m :: after)%list /\
     forallb (fun m' => negb (attempt_ok p user_message m')) before = true /\
     attempt_ok p user_message m = true /\
     generate p m (prompt user_message) = Ok (PDict r) /\
     execute_tool now d (get_or r "tool" PNone) (get_or r "args" (PDict [])) =
       Ok (out, d') /\
     pm = (success_envelope m r out, d',
           Configure api_key
             :: generate_calls user_message (before ++ [m])%list)).
Proof.
  intros pm. subst pm.
  destruct (py_truthy api_key) eqn:K.
  2:{ left. split; [reflexivity|]. unfold process_message. now rewrite K. }
  right. destruct (some_attempt_ok p user_message) eqn:S.
  - right. split; [reflexivity|]. split; [reflexivity|].
    destruct (existsb_split _ _ S) as [before [m [after [C [B M]]]]].
    exists before, m, after.
    pose proof M as M'. unfold attempt_ok in M'.
    destruct (generate p m (prompt user_message)) as [v|e] eqn:G;
      [|discriminate].
    destruct v as [ | | | | | |r]; try discriminate.
    destruct (handle_reply_ok now d m (PDict r) M') as [result [d' E]].
    rewrite handle_reply_dict in E.
    destruct (execute_tool now d (get_or r "tool" PNone)
                (get_or r "args" (PDict []))) as [[out d1]|e] eqn:X;
      [|discriminate].
    simpl in E. injection E as <- <-.
    exists r, out, d1. repeat split; try assumption.
    eapply process_message_returns; eauto using forallb_not_ok.
    unfold try_model. rewrite G. simpl bind.
    rewrite handle_reply_dict, X. reflexivity.
  - left. split; [reflexivity|]. split; [reflexivity|].
    assert (Hall : forall m, In m candidate_models ->
                     exists e, try_model p now d user_message m = Raise e).
    { intros m Hin. apply try_model_not_ok.
      exact (existsb_none _ _ S m Hin). }
    destruct (fallback_loop_all_fail p now d user_message candidate_models
                None Hall) as [le [F _]].
    unfold process_message. rewrite K. simpl negb. cbv iota. rewrite F.
    destruct (list_models p); eexists; reflexivity.
Qed.

End Request.

(** ** The result envelope *)

(** X1.  Whatever the inputs, the result of [process_message] is either a
    dict with the single key error, or the four-key success envelope
    (thought, tool_used, tool_output, model_used) of one of the three
    candidates; it never holds error together with any of the four. *)
Theorem process_message_result_shape p now d user_message api_key :
  let result := fst (fst (process_message p now d user_message api_key)) in
  ((exists text, result = [("error", PStr text)]) \/
   (exists m r out,
       In m candidate_models /\ result = success_envelope m r out)) /\
  dict_has result "error" = negb (dict_has result "tool_used") /\
  dict_has result "thought" = dict_has result "tool_used" /\
  dict_has result "tool_output" = dict_has result "tool_used" /\
  dict_has result "model_used" = dict_has result "tool_used".
Proof.
  destruct (process_message_cases p now d user_message api_key)
    as [[_ E] | [[_ [_ [text E]]] | [_ [_ [before [m [after [r [out [d'
         [C [_ [_ [_ [_ E]]]]]]]]]]]]]]];
    rewrite E; cbn [fst]; (split; [|repeat split; reflexivity]).
  - left. eauto.
  - left. eauto.
  - right. exists m, r, out. split; [|reflexivity].
    rewrite C. apply in_or_app. right. now left.
Qed.

(** X2.  When the result of [process_message] holds an error, the
    registries it hands back are exactly the ones it was given: a failed
    request has run no tool. *)
Theorem error_result_changes_nothing p now d user_message api_key :
  dict_has (fst (fst (process_message p now d user_message api_key))) "error"
    = true ->
  snd (fst (process_message p now d user_message api_key)) = d.
Proof.
  destruct (process_message_cases p now d user_message api_key)
    as [[_ E] | [[_ [_ [text E]]] | [_ [_ [before [m [after [r [out [d'
         [_ [_ [_ [_ [_ E]]]]]]]]]]]]]]];
    rewrite E; simpl; intros H; [reflexivity | reflexivity | discriminate H].
Qed.

Lemma error_result_changes_nothing_witness :
  dict_has (fst (fst (process_message stub_all_fail "2025-01-01 09:00"
                        (snd (create_ticket "2025-01-01 08:00" db0
                                (PStr "printer jam") (PStr "Low")))
                        (PStr "hi") (PStr "key"))))
           "error" = true /\
  snd (fst (process_message stub_all_fail "2025-01-01 09:00"
              (snd (create_ticket "2025-01-01 08:00" db0
                      (PStr "printer jam") (PStr "Low")))
              (PStr "hi") (PStr "key"))) =
  snd (create_ticket "2025-01-01 08:00" db0 (PStr "printer jam") (PStr "Low")).
Proof.
  split; [reflexivity|].
  apply (error_result_changes_nothing stub_all_fail "2025-01-01 09:00"
           (snd (create_ticket "2025-01-01 08:00" db0
                   (PStr "printer jam") (PStr "Low")))
           (PStr "hi") (PStr "key")).
  reflexivity.
Defined.

(** X3.  The calls [process_message] makes into the SDK: none when the
    credential is not truthy; otherwise one configure with the credential,
    then one generate call per candidate, in list order, up to and including
    the first whose attempt completes (between one and three calls, all with
    the same prompt), then one list-models call exactly when no attempt
    completed. *)
Theorem provider_calls_made p now d user_message api_key :
  snd (process_message p now d user_message api_key) =
    (if py_truthy api_key then
       Configure api_key
         :: (generate_calls user_message
               (firstn (attempts_made p user_message candidate_models)
                       candidate_models)
             ++ (if some_attempt_ok p user_message then [] else [ListModels]))%list
     else []) /\
  1 <= attempts_made p user_message candidate_models <= 3.
Proof.
  split.
  2:{ destruct (attempts_made_bounds p user_message candidate_models) as [U L].
      split; [apply L; discriminate | exact U]. }
  destruct (process_message_cases p now d user_message api_key)
    as [[K E] | [[K [SA [text E]]] | [K [SA [before [m [after [r [out [d'
         [C [B [M [_ [_ E]]]]]]]]]]]]]]];
    rewrite E, K; simpl snd; [reflexivity| |]; rewrite SA.
  - now rewrite (attempts_made_all _ _ _ SA).
  - rewrite C, (attempts_made_first _ _ _ _ _ B M), app_nil_r.
    do 2 f_equal.
    change (m :: after) with ([m] ++ after)%list. rewrite app_assoc.
    replace (S (length before)) with (length (before ++ [m])%list + 0)
      by (rewrite length_app; simpl; lia).
    now rewrite firstn_app_2, firstn_O, app_nil_r.
Qed.

(** X4.  Whether a request ends in an error depends on the credential and
    on the provider's replies alone, not on the registries or the clock: the
    result holds an error exactly when the credential is not truthy or no
    candidate's attempt completes. *)
Theorem request_fails_iff p now d user_message api_key :
  dict_has (fst (fst (process_message p now d user_message api_key))) "error" =
  negb (py_truthy api_key && some_attempt_ok p user_message).
Proof.
  destruct (process_message_cases p now d user_message api_key)
    as [[K E] | [[K [S [text E]]] | [K [S [before [m [after [r [out [d'
         [_ [_ [_ [_ [_ E]]]]]]]]]]]]]]];
    rewrite E, K; try rewrite S; reflexivity.
Qed.

(** ** What a request does to the registries *)

Lemma execute_tool_cases now d tool_name tool_args out d' :
  execute_tool now d tool_name tool_args = Ok (out, d') ->
  d' = d \/
  (exists summary priority, d' = snd (create_ticket now d summary priority)) \/
  (exists client_name amount,
      d' = snd (generate_invoice now d client_name amount)).
Proof.
  by_tool tool_name;
    try (destruct tool_args; simpl; try discriminate);
    intros H; injection H as _ <-; eauto.
Qed.

Lemma db_step_lengths (d d' : db) :
  db_step d d' ->
  length (tickets d) <= length (tickets d') /\
  length (invoices d) <= length (invoices d') /\
  length (tickets d') + length (invoices d')
    <= length (tickets d) + length (invoices d) + 1.
Proof.
  intros [ | now summary priority | now client_name amount ]; simpl;
    try rewrite length_app; simpl; lia.
Qed.

(** X5.  One call of [process_message] either leaves the registries as they
    were, or does to them what one call of [create_ticket] at the request's
    time does, or what one call of [generate_invoice] does: it adds at most
    one entry to one registry, and the calendar stays. *)
Theorem request_adds_at_most_one_entry p now d user_message api_key :
  let d' := snd (fst (process_message p now d user_message api_key)) in
  (d' = d \/
   (exists summary priority, d' = snd (create_ticket now d summary priority)) \/
   (exists client_name amount,
       d' = snd (generate_invoice now d client_name amount))) /\
  length (tickets d') + length (invoices d')
    <= length (tickets d) + length (invoices d) + 1 /\
  calendar d' = calendar d.
Proof.
  intros d'. split.
  - subst d'.
    destruct (process_message_cases p now d user_message api_key)
      as [[_ E] | [[_ [_ [text E]]] | [_ [_ [before [m [after [r [out [d1
           [_ [_ [_ [_ [X E]]]]]]]]]]]]]]];
      rewrite E; simpl; auto.
    eapply execute_tool_cases; eassumption.
  - pose proof (process_message_step p now d user_message api_key) as St.
    fold d' in St. split.
    + apply (db_step_lengths _ _ St).
    + apply (db_step_calendar _ _ St).
Qed.


(** ** POST /process *)

(** The three ways a POST /process with a JSON object as body can go. *)
Lemma process_cases p now d items :
  let message := get_or items "message" PNone in
  let api_key := get_or items "api_key" PNone in
  let pm := process_message p now d message api_key in
  (py_truthy api_key && some_attempt_ok p message = false /\
   snd (fst pm) = d /\
   exists text,
     process p now d (PDict items) =
     Ok ({| status := 400; body := PDict [("error", PStr text)] |}, d, snd pm)) \/
  (py_truthy api_key && some_attempt_ok p message = true /\
   exists m r out,
     In m candidate_models /\
     fst (fst pm) = success_envelope m r out /\
     process p now d (PDict items) =
     Ok ({| status := 200;
            body := PDict [ ("result", PDict (success_envelope m r out));
                            ("tickets",
                             PList (map ticket_dict (index (snd (fst pm))))) ] |},
         snd (fst pm), snd pm)).
Proof.
  intros message api_key pm. unfold process. simpl bind.
  fold (get_or items "message" PNone). fold (get_or items "api_key" PNone).
  fold message. fold api_key. subst pm.
  destruct (process_message_cases p now d message api_key)
    as [[K E] | [[K [SA [text E]]] | [K [SA [before [m [after [r [out [d'
         [C [_ [_ [_ [_ E]]]]]]]]]]]]]]];
    rewrite E, K; try rewrite SA.
  - left. simpl. repeat split. eauto.
  - left. simpl. repeat split. eauto.
  - right. split; [reflexivity|]. exists m, r, out.
    split; [rewrite C; apply in_or_app; right; now left|].
    split; [reflexivity|]. simpl. unfold index. now rewrite map_rev.
Qed.

(** X7.  POST /process on a body that is a JSON object always answers, with
    status 200 or 400: 200 exactly when the body's api_key is truthy and
    some candidate's attempt completes; the registries and SDK calls are
    those of [process_message] on the body's message and api_key (None for
    a key the body lacks).  On a JSON body that is not an object the first
    [get] raises AttributeError, before anything else happens. *)
Theorem process_status p now d data :
  match data with
  | PDict items =>
      let message := get_or items "message" PNone in
      let api_key := get_or items "api_key" PNone in
      let pm := process_message p now d message api_key in
      exists resp,
        process p now d data = Ok (resp, snd (fst pm), snd pm) /\
        status resp =
          (if py_truthy api_key && some_attempt_ok p message then 200 else 400)
  | _ =>
      process p now d data =
      Raise ("'" ++ type_name data ++ "' object has no attribute 'get'")
  end.
Proof.
  destruct data as [ | | | | | |items]; try reflexivity.
  destruct (process_cases p now d items)
    as [[F [D [text E]]] | [T [m [r [out [_ [_ E]]]]]]];
    cbv zeta; rewrite E.
  - rewrite F, D. eauto.
  - rewrite T. eauto.
Qed.

(** X8.  A 400 answer of POST /process leaves the registries exactly as they
    were, and its body is a dict with the single key error. *)
Theorem bad_request_changes_nothing p now d data resp d' t :
  process p now d data = Ok (resp, d', t) ->
  status resp = 400 ->
  d' = d /\ exists text, body resp = PDict [("error", PStr text)].
Proof.
  destruct data as [ | | | | | |items]; try discriminate.
  destruct (process_cases p now d items)
    as [[_ [D [text E]]] | [_ [m [r [out [_ [_ E]]]]]]];
    rewrite E; intros H; injection H as <- <- _; simpl.
  - intros _. eauto.
  - discriminate.
Qed.

Lemma bad_request_changes_nothing_witness :
  exists resp t,
    process stub_all_fail "2025-01-01 09:00" db0
            (PDict [("message", PStr "hi"); ("api_key", PStr "key")]) =
    Ok (resp, db0, t) /\
    status resp = 400 /\
    exists text, body resp = PDict [("error", PStr text)].
Proof.
  do 2 eexists. split; [vm_compute; reflexivity|]. split; [reflexivity|].
  refine (proj2 (bad_request_changes_nothing stub_all_fail "2025-01-01 09:00" db0
                   (PDict [("message", PStr "hi"); ("api_key", PStr "key")])
                   _ db0 _ _ _)); [vm_compute; reflexivity | reflexivity].
Defined.

(** X9.  A 200 answer of POST /process carries, under result, the success
    envelope of one of the three candidates and, under tickets, the whole
    tickets registry as it is after the request, newest first. *)
Theorem ok_response_body p now d data resp d' t :
  process p now d data = Ok (resp, d', t) ->
  status resp = 200 ->
  exists m r out,
    In m candidate_models /\
    body resp =
    PDict [ ("result", PDict (success_envelope m r out));
            ("tickets", PList (map ticket_dict (index d'))) ].
Proof.
  destruct data as [ | | | | | |items]; try discriminate.
  destruct (process_cases p now d items)
    as [[_ [D [text E]]] | [_ [m [r [out [Hin [_ E]]]]]]];
    rewrite E; intros H; injection H as <- <- _; simpl status.
  - discriminate.
  - intros _. exists m, r, out. split; [exact Hin | reflexivity].
Qed.

Lemma ok_response_body_witness :
  exists resp d' t,
    process stub_urgent "2025-01-01 09:00" db0
            (PDict [("message", PStr "the server is down");
                    ("api_key", PStr "key")]) =
    Ok (resp, d', t) /\
    status resp = 200 /\
    exists m r out,
      In m candidate_models /\
      body resp =
      PDict [ ("result", PDict (success_envelope m r out));
              ("tickets", PList (map ticket_dict (index d'))) ].
Proof.
  do 3 eexists. split; [vm_compute; reflexivity|]. split; [reflexivity|].
  refine (ok_response_body stub_urgent "2025-01-01 09:00" db0
            (PDict [("message", PStr "the server is down");
                    ("api_key", PStr "key")])
            _ _ _ _ _); [vm_compute; reflexivity | reflexivity].
Defined.

(** X10.  A body without a message key is processed exactly as one whose
    message is null: the user message is None, and the prompt sent to the
    candidates ends with USER MESSAGE: None. *)
Theorem missing_message_is_none p now d items :
  dict_get items "message" = None ->
  process p now d (PDict items) =
    process p now d (PDict (("message", PNone) :: items)) /\
  prompt (get_or items "message" PNone) =
    system_prompt ++ nl ++ nl ++ "USER MESSAGE: None".
Proof.
  intros M. split.
  - unfold process. simpl. now rewrite M.
  - unfold get_or. now rewrite M.
Qed.

Lemma missing_message_is_none_witness :
  dict_get [("api_key", PStr "key")] "message" = None /\
  process stub_third_succeeds "2025-01-01 09:00" db0
          (PDict [("api_key", PStr "key")]) =
  process stub_third_succeeds "2025-01-01 09:00" db0
          (PDict [("message", PNone); ("api_key", PStr "key")]).
Proof.
  split; [reflexivity|].
  exact (proj1 (missing_message_is_none stub_third_succeeds "2025-01-01 09:00"
                  db0 [("api_key", PStr "key")] eq_refl)).
Defined.

(** ** GET / *)

(** X11.  The tickets the index page is given are the registry newest
    first: a ticket just created comes first, before everything that was
    there, and at every point of a lifetime the IDs shown run down from the
    latest to TICK-101. *)
Theorem index_newest_first :
  (forall now d summary priority,
      index (snd (create_ticket now d summary priority)) =
      {| t_id := "TICK-" ++ str_int (Z.of_nat (length (tickets d)) + 101);
         t_summary := summary;
         t_priority := priority;
         t_status := "Open";
         t_created_at := now |} :: index d) /\
  (forall acts,
      map t_id (index (lifetime acts)) =
      rev (ticket_ids (length (tickets (lifetime acts)))) /\
      length (index (lifetime acts)) = length (tickets (lifetime acts))).
Proof.
  split.
  - intros now d summary priority. unfold index. simpl.
    now rewrite rev_unit.
  - intros acts. unfold index. split; [|apply length_rev].
    rewrite map_rev. f_equal.
    apply (wf_ticket_ids _ (registries_wf_lifetime acts)).
Qed.

(** ** Invoices *)

Lemma invoices_kept (acts : list activity) (d : db) :
  exists later, invoices (lifetime_from d acts) = (invoices d ++ later)%list.
Proof.
  revert d. induction acts as [|a acts IH]; intros d.
  - exists []. simpl. now rewrite app_nil_r.
  - destruct (IH (perform d a)) as [later E].
    change (lifetime_from d (a :: acts))
      with (lifetime_from (perform d a) acts). rewrite E.
    destruct (db_step_invoices _ _ (perform_step d a)) as [St | [i [St _]]];
      rewrite St.
    + now exists later.
    + exists (i :: later). now rewrite <- app_assoc.
Qed.

(** X12.  Every invoice in the invoices registry, at every point of a
    lifetime, has status "Sent"; and the invoices present at some point
    stay, in the same places and unchanged, whatever is done afterwards. *)
Theorem invoices_sent_and_kept :
  (forall acts,
      Forall (fun i => i_status i = "Sent") (invoices (lifetime acts))) /\
  (forall d acts,
      exists later, invoices (lifetime_from d acts) = (invoices d ++ later)%list).
Proof.
  split.
  - intros acts. apply (wf_invoice_status _ (registries_wf_lifetime acts)).
  - intros d acts. apply invoices_kept.
Qed.

(** ** Requests that create an entry *)

(** X13.  When the first candidate whose attempt completes selects
    create_ticket with an args object (or none), [process_message] appends
    one ticket and touches nothing else.  The ticket has the next ID, the
    summary and priority of args (None and "Medium" where args lack them),
    status "Open" and the request's time; the result's tool_output cites
    that very ID, and the index page then shows this ticket first. *)
Theorem create_ticket_request
    p now d user_message api_key before m after r a :
  py_truthy api_key = true ->
  candidate_models = (before ++ m :: after)%list ->
  forallb (fun m' => negb (attempt_ok p user_message m')) before = true ->
  generate p m (prompt user_message) = Ok (PDict r) ->
  dict_get r "tool" = Some (PStr "create_ticket") ->
  get_or r "args" (PDict []) = PDict a ->
  let pm := process_message p now d user_message api_key in
  let t := {| t_id := "TICK-" ++ str_int (Z.of_nat (length (tickets d)) + 101);
              t_summary := get_or a "summary" PNone;
              t_priority := get_or a "priority" (PStr "Medium");
              t_status := "Open";
              t_created_at := now |} in
  snd (fst pm) = {| tickets := (tickets d ++ [t])%list;
                    invoices := invoices d;
                    calendar := calendar d |} /\
  dict_get (fst (fst pm)) "tool_used" = Some (PStr "create_ticket") /\
  dict_get (fst (fst pm)) "tool_output" =
    Some (PStr ("Ticket created successfully. ID: " ++ t_id t)) /\
  index (snd (fst pm)) = t :: index d.
Proof.
  intros K C Hb G T A pm t.
  assert (E : try_model p now d user_message m =
              Ok (success_envelope m r ("Ticket created successfully. ID: " ++ t_id t),
                  {| tickets := (tickets d ++ [t])%list;
                     invoices := invoices d;
                     calendar := calendar d |})).
  { unfold try_model. rewrite G. simpl bind. rewrite handle_reply_dict, A.
    unfold get_or at 1. rewrite T, execute_tool_create_ticket. reflexivity. }
  subst pm.
  rewrite (process_message_returns _ _ _ _ _ _ _ _ _ _ K C
             (forallb_not_ok _ now d _ _ Hb) E).
  cbn [fst snd]. split; [reflexivity|].
  unfold success_envelope, get_or. rewrite T.
  split; [reflexivity|]. split; [reflexivity|].
  unfold index. cbn [tickets]. now rewrite rev_unit.
Qed.

Lemma create_ticket_request_witness :
  let pm := process_message stub_urgent "2025-01-01 09:00" db0
                            (PStr "the server is down") (PStr "key") in
  tickets (snd (fst pm)) =
    [ {| t_id := "TICK-101"; t_summary := PStr "server down";
         t_priority := PStr "Urgent"; t_status := "Open";
         t_created_at := "2025-01-01 09:00" |} ] /\
  dict_get (fst (fst pm)) "tool_output" =
    Some (PStr "Ticket created successfully. ID: TICK-101").
Proof.
  destruct (create_ticket_request
              stub_urgent "2025-01-01 09:00" db0 (PStr "the server is down")
              (PStr "key") [] "gemini-2.5-flash"
              ["gemini-2.0-flash"; "gemini-1.5-flash"]
              [("thought", PStr "an outage"); ("tool", PStr "create_ticket");
               ("args", PDict [("summary", PStr "server down");
                               ("priority", PStr "Urgent")])]
              [("summary", PStr "server down"); ("priority", PStr "Urgent")]
              eq_refl eq_refl eq_refl eq_refl eq_refl eq_refl)
    as [D [_ [O _]]].
  cbv zeta. split; [now rewrite D | exact O].
Defined.

(** X14.  When the first candidate whose attempt completes selects
    generate_invoice with an args object (or none), [process_message]
    appends one invoice and touches nothing else.  The invoice has the next
    ID, the client and amount of args (None where args lack them), status
    "Sent" and the request's time; the result's tool_output names the
    client, the amount and that very ID. *)
Theorem generate_invoice_request
    p now d user_message api_key before m after r a :
  py_truthy api_key = true ->
  candidate_models = (before ++ m :: after)%list ->
  forallb (fun m' => negb (attempt_ok p user_message m')) before = true ->
  generate p m (prompt user_message) = Ok (PDict r) ->
  dict_get r "tool" = Some (PStr "generate_invoice") ->
  get_or r "args" (PDict []) = PDict a ->
  let pm := process_message p now d user_message api_key in
  let i := {| i_id := "INV-" ++ str_int (Z.of_nat (length (invoices d)) + 1001);
              i_client := get_or a "client_name" PNone;
              i_amount := get_or a "amount" PNone;
              i_status := "Sent";
              i_created_at := now |} in
  snd (fst pm) = {| tickets := tickets d;
                    invoices := (invoices d ++ [i])%list;
                    calendar := calendar d |} /\
  dict_get (fst (fst pm)) "tool_used" = Some (PStr "generate_invoice") /\
  dict_get (fst (fst pm)) "tool_output" =
    Some (PStr ("Invoice generated for " ++ py_str (i_client i) ++ " for $"
                  ++ py_str (i_amount i) ++ ". ID: " ++ i_id i)).
Proof.
  intros K C Hb G T A pm i.
  assert (E : try_model p now d user_message m =
              Ok (success_envelope m r
                    ("Invoice generated for " ++ py_str (i_client i) ++ " for $"
                       ++ py_str (i_amount i) ++ ". ID: " ++ i_id i),
                  {| tickets := tickets d;
                     invoices := (invoices d ++ [i])%list;
                     calendar := calendar d |})).
  { unfold try_model. rewrite G. simpl bind. rewrite handle_reply_dict, A.
    unfold get_or at 1. rewrite T, execute_tool_generate_invoice. reflexivity. }
  subst pm.
  rewrite (process_message_returns _ _ _ _ _ _ _ _ _ _ K C
             (forallb_not_ok _ now d _ _ Hb) E).
  cbn [fst snd]. split; [reflexivity|].
  unfold success_envelope, get_or. rewrite T.
  split; reflexivity.
Qed.

Lemma generate_invoice_request_witness :
  let pm := process_message stub_invoice "2025-01-01 09:00" db0
                            (PStr "bill Acme 250") (PStr "key") in
  invoices (snd (fst pm)) =
    [ {| i_id := "INV-1001"; i_client := PStr "Acme"; i_amount := PInt 250;
         i_status := "Sent"; i_created_at := "2025-01-01 09:00" |} ] /\
  dict_get (fst (fst pm)) "tool_output" =
    Some (PStr "Invoice generated for Acme for $250. ID: INV-1001").
Proof.
  destruct (generate_invoice_request
              stub_invoice "2025-01-01 09:00" db0 (PStr "bill Acme 250")
              (PStr "key") [] "gemini-2.5-flash"
              ["gemini-2.0-flash"; "gemini-1.5-flash"]
              [("thought", PStr "billing"); ("tool", PStr "generate_invoice");
               ("args", PDict [("client_name", PStr "Acme");
                               ("amount", PInt 250)])]
              [("client_name", PStr "Acme"); ("amount", PInt 250)]
              eq_refl eq_refl eq_refl eq_refl eq_refl eq_refl)
    as [D [_ O]].
  cbv zeta. split; [now rewrite D | exact O].
Defined.

(** ** The calendar check *)

(** X15.  [check_calendar] answers that the calendar is completely free
    exactly when the calendar registry is empty, and its answer never
    depends on the date it is asked about.  Since the calendar of a lifetime
    is always the seeded one, that answer is never given in a lifetime. *)
Theorem check_calendar_free_iff_empty (d : db) (date_str date_str' : pyval) :
  (check_calendar d date_str = "Calendar is completely free."
   <-> calendar d = []) /\
  check_calendar d date_str = check_calendar d date_str' /\
  (forall acts,
      check_calendar (lifetime acts) date_str <> "Calendar is completely free.").
Proof.
  assert (Iff : forall d0,
             check_calendar d0 date_str = "Calendar is completely free."
             <-> calendar d0 = []).
  { intros d0. unfold check_calendar. destruct (calendar d0) as [|e l].
    - split; reflexivity.
    - split; intros H; discriminate H. }
  split; [apply Iff|]. split; [reflexivity|].
  intros acts H. apply Iff in H.
  rewrite (wf_calendar _ (registries_wf_lifetime acts)) in H. discriminate H.
Qed.

(** ** The error of an exhausted loop *)

(** X16.  When the credential is truthy and no candidate's attempt
    completes, the error text quotes the failure of the last candidate,
    gemini-1.5-flash: the provider's exception message if its request or
    parse raised, and otherwise the AttributeError message naming the type
    of what [get] was called on (the parsed reply when it is not an object,
    else its args). *)
Theorem exhausted_error_text p now d user_message api_key :
  py_truthy api_key = true ->
  some_attempt_ok p user_message = false ->
  let e := attempt_error p user_message "gemini-1.5-flash" in
  fst (fst (process_message p now d user_message api_key)) =
  [("error",
    PStr (match list_models p with
          | Ok available_models =>
              "All models failed. Last error: " ++ e ++ ". Available: "
                ++ py_str (PList (map PStr (firstn 5 available_models)))
          | Raise _ => "All models failed. Last error: " ++ e
          end))].
Proof.
  intros K SA e.
  assert (Hall : forall m, In m candidate_models ->
                   exists e', try_model p now d user_message m = Raise e').
  { intros m Hin. apply try_model_not_ok. exact (existsb_none _ _ SA m Hin). }
  assert (Hlast : try_model p now d user_message
                    (last candidate_models EmptyString) = Raise e).
  { apply try_model_attempt_error.
    apply (existsb_none _ _ SA). simpl. auto. }
  destruct (fallback_loop_all_fail p now d user_message candidate_models
              None Hall) as [le [F [_ L]]].
  unfold process_message. rewrite K. simpl negb. cbv iota.
  rewrite F, (L e Hlast) by discriminate.
  destruct (list_models p); reflexivity.
Qed.

Lemma exhausted_error_text_witness :
  some_attempt_ok stub_last_not_object (PStr "hi") = false /\
  fst (fst (process_message stub_last_not_object "2025-01-01 09:00" db0
                            (PStr "hi") (PStr "key"))) =
  [("error",
    PStr "All models failed. Last error: 'str' object has no attribute 'get'")].
Proof.
  split; [reflexivity|].
  exact (exhausted_error_text stub_last_not_object "2025-01-01 09:00" db0
           (PStr "hi") (PStr "key") eq_refl eq_refl).
Defined.
